(** * otel-test-traces.py: the retrying OTLP telemetry sender

    A shallow embedding of [acp-example/otel/otel-test-traces.py].  The
    script reads a clock, a pseudo random generator and the kernel's
    entropy pool, builds three OTLP/JSON payloads, POSTs each of them to
    a local collector with a bounded retry loop, prints a report and
    exits.  Everything the script observes from the outside is supplied
    by an environment [Env]; everything it does to the outside is
    recorded, in order, in the [trace] of the [World]. *)

From Stdlib Require Import ZArith List String Ascii Bool Lia.
From Stdlib Require Import DecimalString DecimalZ.
From Stdlib.Strings Require Import Byte.
Import ListNotations.
Local Open Scope string_scope.
Local Open Scope Z_scope.
Local Set Warnings "-register-all".

(** ** Python values used by the script *)

(** [str(n)] on a Python [int]: decimal digits, a leading minus sign for
    negative numbers. *)
Definition str (n : Z) : string := NilZero.string_of_int (Z.to_int n).

(** [int(s)] on a decimal string; [None] stands for [ValueError]. *)
Definition int (s : string) : option Z :=
  option_map Z.of_int (NilZero.int_of_string s).

Definition newline : string := String (ascii_of_nat 10) EmptyString.

(** [range(n)] *)
Definition range (n : Z) : list Z := map Z.of_nat (seq 0 (Z.to_nat n)).

(** [bytes.hex()]: two lower-case hexadecimal digits per byte. *)
Definition hex_digit (n : N) : ascii :=
  match n with
  | 0%N => "0" | 1%N => "1" | 2%N => "2" | 3%N => "3"
  | 4%N => "4" | 5%N => "5" | 6%N => "6" | 7%N => "7"
  | 8%N => "8" | 9%N => "9" | 10%N => "a" | 11%N => "b"
  | 12%N => "c" | 13%N => "d" | 14%N => "e" | _ => "f"
  end%char.

Definition hex_of_byte (b : byte) : string :=
  String (hex_digit (N.div (Byte.to_N b) 16))
    (String (hex_digit (N.modulo (Byte.to_N b) 16)) EmptyString).

Fixpoint hex (bs : list byte) : string :=
  match bs with
  | [] => EmptyString
  | b :: rest => hex_of_byte b ++ hex rest
  end.

(** The characters of [string.hexdigits]. *)
Definition is_hex_char (c : ascii) : bool :=
  let n := N_of_ascii c in
  ((48 <=? n) && (n <=? 57) || (97 <=? n) && (n <=? 102)
   || (65 <=? n) && (n <=? 70))%N.

Fixpoint all_chars (p : ascii -> bool) (s : string) : bool :=
  match s with
  | EmptyString => true
  | String c rest => p c && all_chars p rest
  end.

(** JSON-serialisable Python values.  A [dict] keeps its items in
    insertion order, which is the order of the literal. *)
Inductive json : Type :=
| JStr (s : string)
| JInt (n : Z)
| JList (items : list json)
| JDict (items : list (string * json)).

Fixpoint dict_get (key : string) (items : list (string * json)) : option json :=
  match items with
  | [] => None
  | (k, v) :: rest => if String.eqb k key then Some v else dict_get key rest
  end.

(** One subscript: [d["key"]] or [l[i]]. *)
Inductive subscript : Type :=
| Key (k : string)
| Idx (i : nat).

Definition getitem (j : json) (s : subscript) : option json :=
  match j, s with
  | JDict items, Key k => dict_get k items
  | JList items, Idx i => nth_error items i
  | _, _ => None
  end.

(** A chain of subscripts, [j[s1][s2]...]; [None] stands for [KeyError],
    [IndexError] or [TypeError]. *)
Fixpoint select (path : list subscript) (j : json) : option json :=
  match path with
  | [] => Some j
  | s :: rest =>
      match getitem j s with
      | Some j' => select rest j'
      | None => None
      end
  end.

(** ** The [requests] interface *)

(** What the script reads of a [requests.Response]. *)
Record Response : Type := mkResponse {
  status_code : Z;
  reason : string;
  text : string;
  resp_url : string
}.

(** The classes of [requests.exceptions] the handlers tell apart.
    [ConnectTimeout] derives from both [ConnectionError] and [Timeout];
    [HTTPError] is what [raise_for_status] raises; every class derives
    from [RequestException]. *)
Inductive requests_class : Type :=
| ConnectionError
| Timeout
| ConnectTimeout
| HTTPError
| RequestException.

Definition issubclass (c base : requests_class) : bool :=
  match base, c with
  | RequestException, _ => true
  | ConnectionError, (ConnectionError | ConnectTimeout) => true
  | Timeout, (Timeout | ConnectTimeout) => true
  | ConnectTimeout, ConnectTimeout => true
  | HTTPError, HTTPError => true
  | _, _ => false
  end.

(** Exceptions that occur in the script: the [requests] family, the
    [AttributeError] of an attribute access on the wrong kind of object,
    and the [SystemExit] that [sys.exit] raises. *)
Inductive exn : Type :=
| RequestsExc (cls : requests_class) (msg : string)
| AttributeError (msg : string)
| SystemExit (code : Z).

Definition isinstance (e : exn) (base : requests_class) : bool :=
  match e with
  | RequestsExc c _ => issubclass c base
  | AttributeError _ | SystemExit _ => false
  end.

(** [str(e)] *)
Definition exn_str (e : exn) : string :=
  match e with
  | RequestsExc _ msg | AttributeError msg => msg
  | SystemExit code => str code
  end.

(** What one call of [requests.post] ends in: a response of the server,
    or an exception of the [requests] family. *)
Inductive post_outcome : Type :=
| Responds (r : Response)
| Fails (cls : requests_class) (msg : string).

Record Request : Type := mkRequest {
  req_url : string;
  req_headers : list (string * string);
  req_json : json
}.

(** ** Environment, world and the script's monad *)

Record Env : Type := mkEnv {
  clock : nat -> Z;             (* k-th reading of [time.time_ns()] *)
  prng : nat -> Z;              (* raw value behind the k-th [random] draw *)
  entropy : nat -> byte;        (* byte stream served by [os.urandom] *)
  network : nat -> post_outcome (* fate of the k-th POST of the process *)
}.

Inductive event : Type :=
| EPrint (line : string)
| EPost (r : Request)
| ESleep (seconds : Z).

Record World : Type := mkWorld {
  clock_reads : nat;
  prng_draws : nat;
  entropy_read : nat;
  posts_issued : nat;
  trace : list event
}.

Definition initial_world : World := mkWorld 0 0 0 0 [].

Inductive outcome (A : Type) : Type :=
| Val (a : A)
| Raise (e : exn).
Arguments Val {A} a.
Arguments Raise {A} e.

(** A computation runs in a world and ends in a value or a raised
    exception; the effects done before a [raise] stay done. *)
Definition M (A : Type) : Type := World -> outcome A * World.

Definition ret {A} (a : A) : M A := fun w => (Val a, w).

Definition bind {A B} (m : M A) (k : A -> M B) : M B :=
  fun w =>
    match m w with
    | (Val a, w') => k a w'
    | (Raise e, w') => (Raise e, w')
    end.

Definition raise {A} (e : exn) : M A := fun w => (Raise e, w).

(** [try: body  except ... as e: handler e] *)
Definition try_except {A} (body : M A) (handler : exn -> M A) : M A :=
  fun w =>
    match body w with
    | (Val a, w') => (Val a, w')
    | (Raise e, w') => handler e w'
    end.

Declare Scope py_scope.
Delimit Scope py_scope with py.
Notation "x <- c ;; k" := (bind c (fun x => k))
  (at level 61, c at next level, right associativity) : py_scope.
Notation "' pat <- c ;; k" :=
  (bind c (fun x => match x with pat => k end))
  (at level 61, pat pattern, c at next level, right associativity) : py_scope.
Notation "c ;; k" := (bind c (fun _ => k))
  (at level 61, right associativity) : py_scope.
Local Open Scope py_scope.

Definition emit (e : event) : M unit :=
  fun w => (Val tt, mkWorld (clock_reads w) (prng_draws w) (entropy_read w)
                      (posts_issued w) (trace w ++ [e])%list).

(** [print(a, b, ...)] of already formatted arguments: joined by one
    space, one line on standard output. *)
Definition print (args : list string) : M unit :=
  emit (EPrint (String.concat " " args)).

(** [time.sleep(seconds)] *)
Definition time_sleep (seconds : Z) : M unit := emit (ESleep seconds).

(** [sys.exit(code)] *)
Definition sys_exit {A} (code : Z) : M A := raise (SystemExit code).

Section Primitives.

Variable env : Env.

(** [time.time_ns()] *)
Definition time_time_ns : M Z :=
  fun w => (Val (clock env (clock_reads w)),
            mkWorld (S (clock_reads w)) (prng_draws w) (entropy_read w)
              (posts_issued w) (trace w)).

(** [random.randint(a, b)]: [a + k] for a [k] below [b - a + 1], taken
    from the generator's next raw value. *)
Definition random_randint (a b : Z) : M Z :=
  fun w => (Val (a + prng env (prng_draws w) mod (b - a + 1)),
            mkWorld (clock_reads w) (S (prng_draws w)) (entropy_read w)
              (posts_issued w) (trace w)).

(** [os.urandom(n)]: the next [n] bytes of the entropy stream. *)
Definition os_urandom (n : nat) : M (list byte) :=
  fun w => (Val (map (entropy env) (seq (entropy_read w) n)),
            mkWorld (clock_reads w) (prng_draws w) (entropy_read w + n)
              (posts_issued w) (trace w)).

(** [requests.post(url, headers=headers, json=payload)] *)
Definition requests_post (url : string) (headers : list (string * string))
    (payload : json) : M Response :=
  fun w =>
    let w' := mkWorld (clock_reads w) (prng_draws w) (entropy_read w)
                (S (posts_issued w))
                (trace w ++ [EPost (mkRequest url headers payload)])%list in
    match network env (posts_issued w) with
    | Responds r => (Val r, w')
    | Fails cls msg => (Raise (RequestsExc cls msg), w')
    end.

End Primitives.

(** [response.raise_for_status()]: "Raise exception for 4XX/5XX
    responses", an [HTTPError]. *)
Definition raise_for_status (response : Response) : M unit :=
  let status := status_code response in
  if (400 <=? status) && (status <? 500) then
    raise (RequestsExc HTTPError
             (str status ++ " Client Error: " ++ reason response
              ++ " for url: " ++ resp_url response))
  else if (500 <=? status) && (status <? 600) then
    raise (RequestsExc HTTPError
             (str status ++ " Server Error: " ++ reason response
              ++ " for url: " ++ resp_url response))
  else ret tt.

(** ** The script *)

(** Configuration for retry mechanism *)
Definition MAX_RETRIES : Z := 3.
Definition RETRY_DELAY : Z := 2.  (* seconds between retries *)

Definition logs_payload (current_time_ns : Z) : json :=
  JDict [
    ("resourceLogs", JList [
      JDict [
        ("resource", JDict [
          ("attributes", JList [
            JDict [
              ("key", JStr "service.name");
              ("value", JDict [("stringValue", JStr "curl-test-service")])
            ]
          ])
        ]);
        ("scopeLogs", JList [
          JDict [
            ("scope", JDict [("name", JStr "curl-test-scope")]);
            ("logRecords", JList [
              JDict [
                ("timeUnixNano", JStr (str current_time_ns));
                ("severityNumber", JInt 9);
                ("severityText", JStr "INFO");
                ("body", JDict [("stringValue", JStr "Hello from test service!")]);
                ("attributes", JList [
                  JDict [
                    ("key", JStr "service.name");
                    ("value", JDict [("stringValue", JStr "curl-test-service")])
                  ]
                ])
              ]
            ])
          ]
        ])
      ]
    ])
  ].

(** [randint_0_100] is the value of the [random.randint(0, 100)] inside
    the literal. *)
Definition metrics_payload (current_time_ns randint_0_100 : Z) : json :=
  JDict [
    ("resourceMetrics", JList [
      JDict [
        ("resource", JDict [
          ("attributes", JList [
            JDict [
              ("key", JStr "service.name");
              ("value", JDict [("stringValue", JStr "curl-test-service")])
            ]
          ])
        ]);
        ("scopeMetrics", JList [
          JDict [
            ("scope", JDict [("name", JStr "curl-test-scope")]);
            ("metrics", JList [
              JDict [
                ("name", JStr "curl.test.metric");
                ("description", JStr "Test metric");
                ("unit", JStr "1");
                ("gauge", JDict [
                  ("dataPoints", JList [
                    JDict [
                      ("timeUnixNano", JStr (str current_time_ns));
                      ("asInt", JInt randint_0_100)
                    ]
                  ])
                ])
              ]
            ])
          ]
        ])
      ]
    ])
  ].

Definition trace_payload (current_time_ns : Z)
    (trace_id_hex parent_span_id_hex child_span_id_hex : string) : json :=
  JDict [
    ("resourceSpans", JList [
      JDict [
        ("resource", JDict [
          ("attributes", JList [
            JDict [
              ("key", JStr "service.name");
              ("value", JDict [("stringValue", JStr "python-random-service")])
            ]
          ])
        ]);
        ("scopeSpans", JList [
          JDict [
            ("scope", JDict [("name", JStr "python-random-scope")]);
            ("spans", JList [
              JDict [
                ("traceId", JStr trace_id_hex);
                ("spanId", JStr parent_span_id_hex);
                ("name", JStr "parent-operation");
                ("kind", JStr "SPAN_KIND_SERVER");
                ("startTimeUnixNano", JStr (str current_time_ns));
                ("endTimeUnixNano", JStr (str (current_time_ns + 30000000000)));
                ("attributes", JList [
                  JDict [
                    ("key", JStr "operation.type");
                    ("value", JDict [("stringValue", JStr "parent")])
                  ]
                ])
              ];
              JDict [
                ("traceId", JStr trace_id_hex);
                ("spanId", JStr child_span_id_hex);
                ("parentSpanId", JStr parent_span_id_hex);
                ("name", JStr "child-operation");
                ("kind", JStr "SPAN_KIND_INTERNAL");
                ("startTimeUnixNano", JStr (str (current_time_ns + 5000000000)));
                ("endTimeUnixNano", JStr (str (current_time_ns + 15000000000)));
                ("attributes", JList [
                  JDict [
                    ("key", JStr "operation.type");
                    ("value", JDict [("stringValue", JStr "child")])
                  ]
                ])
              ]
            ])
          ]
        ])
      ]
    ])
  ].

Definition url_base : string := "http://localhost:4318/v1".
Definition headers : list (string * string) :=
  [("Content-Type", "application/json")].

(** The module-level names bound while the payloads are built. *)
Record Globals : Type := mkGlobals {
  current_time_ns : Z;
  randint_0_100 : Z;
  trace_id_hex : string;
  parent_span_id_hex : string;
  child_span_id_hex : string
}.

(** What [send_telemetry] returns: [(True, response)] or
    [(False, message)]. *)
Definition SendResult : Type := (bool * (Response + string))%type.

Section Script.

Variable env : Env.

(** Lines 21-158, in program order: one clock reading, the [randint] of
    the metrics literal, three reads of [os.urandom]. *)
Definition build_payloads : M Globals :=
  current_time_ns <- time_time_ns env ;;
  randint_0_100 <- random_randint env 0 100 ;;
  trace_id <- os_urandom env 16 ;;
  parent_span_id <- os_urandom env 8 ;;
  child_span_id <- os_urandom env 8 ;;
  ret (mkGlobals current_time_ns randint_0_100
         (hex trace_id) (hex parent_span_id) (hex child_span_id)).

(** The suite under [try:].  [Some r] is [return r]. *)
Definition try_suite (url : string) (payload : json) (telemetry_type : string)
    (attempt : Z) : M (option SendResult) :=
  print ["Sending " ++ telemetry_type ++ " (attempt " ++ str (attempt + 1)
         ++ "/" ++ str MAX_RETRIES ++ ")..."] ;;
  response <- requests_post env url headers payload ;;
  raise_for_status response ;;  (* Raise exception for 4XX/5XX responses *)
  ret (Some (true, inl response)).

(** The three [except] clauses, tried in order; an exception none of
    them names propagates.  [None] is falling out of a handler, on to
    the code after the [try] statement. *)
Definition except_clauses (url : string) (telemetry_type : string) (e : exn)
  : M (option SendResult) :=
  if isinstance e ConnectionError then
    let error_msg := "Connection error: The OpenTelemetry endpoint at "
                     ++ url ++ " is unavailable" in
    print [error_msg ++ ": " ++ exn_str e] ;;
    ret None
  else if isinstance e Timeout then
    let error_msg := "Timeout error: The request to " ++ url ++ " timed out" in
    print [error_msg ++ ": " ++ exn_str e] ;;
    ret None
  else if isinstance e RequestException then
    let error_msg := "Request error: Failed to send " ++ telemetry_type
                     ++ " to " ++ url in
    print [error_msg ++ ": " ++ exn_str e] ;;
    ret None
  else raise e.

(** The [try] statement of the loop body. *)
Definition try_post (url : string) (payload : json) (telemetry_type : string)
    (attempt : Z) : M (option SendResult) :=
  try_except (try_suite url payload telemetry_type attempt)
    (except_clauses url telemetry_type).

(** [for attempt in attempts: ...] followed by the final [return]. *)
Fixpoint for_attempt_in (attempts : list Z) (url : string) (payload : json)
    (telemetry_type : string) : M SendResult :=
  match attempts with
  | [] =>
      ret (false, inr ("Failed to send " ++ telemetry_type ++ " after "
                       ++ str MAX_RETRIES ++ " attempts"))
  | attempt :: rest =>
      returned <- try_post url payload telemetry_type attempt ;;
      match returned with
      | Some r => ret r
      | None =>
          (* Don't sleep after the last attempt *)
          (if attempt <? MAX_RETRIES - 1 then
             print ["Retrying in " ++ str RETRY_DELAY ++ " seconds..."] ;;
             time_sleep RETRY_DELAY
           else ret tt) ;;
          for_attempt_in rest url payload telemetry_type
      end
  end.

Definition send_telemetry (endpoint : string) (payload : json)
    (telemetry_type : string) : M SendResult :=
  let url := url_base ++ "/" ++ endpoint in
  for_attempt_in (range MAX_RETRIES) url payload telemetry_type.

Definition total_operations : Z := 3.

(** Attribute access on the object bound to [response]: a [str] has
    neither [status_code] nor [text]. *)
Definition attributes_of (result : Response + string) : M Response :=
  match result with
  | inl response => ret response
  | inr _ => raise (AttributeError "'str' object has no attribute 'status_code'")
  end.

(** [str(result)], as the f-string of the [else] branch formats it. *)
Definition result_str (result : Response + string) : string :=
  match result with
  | inl response => "<Response [" ++ str (status_code response) ++ "]>"
  | inr message => message
  end.

(** The three reporting blocks.  Each takes [success_count] as it stands
    before the block and returns the values of [success] and
    [success_count] after it. *)
Definition send_logs (g : Globals) (success_count : Z) : M (bool * Z) :=
  '(success, result) <-
     send_telemetry "logs" (logs_payload (current_time_ns g)) "logs" ;;
  if success then
    response <- attributes_of result ;;
    print ["Logs Status code:"; str (status_code response)] ;;
    print ["Logs Response body:"; text response] ;;
    ret (success, success_count + 1)
  else
    print ["Logs Error: " ++ result_str result] ;;
    ret (success, success_count).

Definition send_metrics (g : Globals) (success_count : Z) : M (bool * Z) :=
  '(success, result) <-
     send_telemetry "metrics"
       (metrics_payload (current_time_ns g) (randint_0_100 g)) "metrics" ;;
  if success then
    response <- attributes_of result ;;
    print ["Metrics Status code:"; str (status_code response)] ;;
    print ["Metrics Response body:"; text response] ;;
    ret (success, success_count + 1)
  else
    print ["Metrics Error: " ++ result_str result] ;;
    ret (success, success_count).

Definition send_traces (g : Globals) (success_count : Z) : M (bool * Z) :=
  '(success, result) <-
     send_telemetry "traces"
       (trace_payload (current_time_ns g) (trace_id_hex g)
          (parent_span_id_hex g) (child_span_id_hex g)) "traces" ;;
  if success then
    response <- attributes_of result ;;
    print ["Traces Status code:"; str (status_code response)] ;;
    print ["Traces Response body:"; text response] ;;
    ret (success, success_count + 1)
  else
    print ["Traces Error: " ++ result_str result] ;;
    ret (success, success_count).

(** Always print the generated IDs regardless of success *)
Definition print_ids (g : Globals) : M unit :=
  print ["Generated traceId:"; trace_id_hex g] ;;
  print ["Generated parent spanId:"; parent_span_id_hex g] ;;
  print ["Generated child spanId:"; child_span_id_hex g].

(** Summary *)
Definition summary_line (success_count : Z) : string :=
  newline ++ "Summary: " ++ str success_count ++ "/" ++ str total_operations
  ++ " operations completed successfully".

(** Exit with appropriate status code *)
Definition exit_with_status (success_count : Z) : M unit :=
  if success_count =? 0 then
    print ["All telemetry operations failed. Check if the OpenTelemetry endpoint is available."] ;;
    sys_exit 1
  else if success_count <? total_operations then
    print ["Some telemetry operations failed. Check the logs for details."] ;;
    sys_exit 1
  else
    print ["All telemetry operations completed successfully."] ;;
    sys_exit 0.

(** The whole script, top to bottom. *)
Definition main : M unit :=
  g <- build_payloads ;;
  let success_count := 0 in
  '(_, success_count) <- send_logs g success_count ;;
  '(_, success_count) <- send_metrics g success_count ;;
  '(_, success_count) <- send_traces g success_count ;;
  print_ids g ;;
  print [summary_line success_count] ;;
  exit_with_status success_count.

End Script.

(** The exit status the operating system sees: the code of a
    [SystemExit], 1 for any other uncaught exception, 0 when the script
    runs off its end. *)
Definition exit_status {A} (o : outcome A) : Z :=
  match o with
  | Val _ => 0
  | Raise (SystemExit code) => code
  | Raise _ => 1
  end.

Definition run (env : Env) : outcome unit * World := main env initial_world.

(** ** Vocabulary of the specification *)

(** The world [w] after [posts] more POSTs and the events [new]. *)
Definition advance (w : World) (posts : nat) (new : list event) : World :=
  mkWorld (clock_reads w) (prng_draws w) (entropy_read w)
    (posts_issued w + posts) (trace w ++ new)%list.

(** An attempt fails when [requests.post] raises, or when the response
    makes [raise_for_status] raise. *)
Definition attempt_fails (o : post_outcome) : bool :=
  match o with
  | Responds r => (400 <=? status_code r) && (status_code r <? 600)
  | Fails _ _ => true
  end.

Definition is_2xx (status : Z) : bool := (200 <=? status) && (status <? 300).

Fixpoint posts_in (tr : list event) : list Request :=
  match tr with
  | [] => []
  | EPost r :: rest => r :: posts_in rest
  | _ :: rest => posts_in rest
  end.

Fixpoint sleeps_in (tr : list event) : list Z :=
  match tr with
  | [] => []
  | ESleep s :: rest => s :: sleeps_in rest
  | _ :: rest => sleeps_in rest
  end.

(** The trace without its console output: POSTs and delays, in order. *)
Fixpoint io_events (tr : list event) : list event :=
  match tr with
  | [] => []
  | EPrint _ :: rest => io_events rest
  | e :: rest => e :: io_events rest
  end.

(** The request every attempt of one [send_telemetry] call makes. *)
Definition request_of (endpoint : string) (payload : json) : Request :=
  mkRequest (url_base ++ "/" ++ endpoint) headers payload.

(** POSTs and delays of a call whose loop runs through [attempts]
    failing each time. *)
Definition failed_rounds (req : Request) (attempts : list Z) : list event :=
  flat_map (fun attempt =>
              EPost req ::
              (if attempt <? MAX_RETRIES - 1 then [ESleep RETRY_DELAY] else []))
    attempts.

(** The progress line that opens an attempt. *)
Definition sending_line (telemetry_type : string) (attempt : Z) : event :=
  EPrint ("Sending " ++ telemetry_type ++ " (attempt " ++ str (attempt + 1)
          ++ "/" ++ str MAX_RETRIES ++ ")...").

(** What follows a failed attempt before the next one starts. *)
Definition pause_after (attempt : Z) : list event :=
  if attempt <? MAX_RETRIES - 1 then
    [EPrint ("Retrying in " ++ str RETRY_DELAY ++ " seconds...");
     ESleep RETRY_DELAY]
  else [].

(** The message of the final [return]. *)
Definition failure_message (telemetry_type : string) : string :=
  "Failed to send " ++ telemetry_type ++ " after " ++ str MAX_RETRIES
  ++ " attempts".

Definition subscripts_to_log_record : list subscript :=
  [Key "resourceLogs"; Idx 0; Key "scopeLogs"; Idx 0; Key "logRecords"; Idx 0].

Definition subscripts_to_data_point : list subscript :=
  [Key "resourceMetrics"; Idx 0; Key "scopeMetrics"; Idx 0; Key "metrics"; Idx 0;
   Key "gauge"; Key "dataPoints"; Idx 0].

Definition subscripts_to_span (i : nat) : list subscript :=
  [Key "resourceSpans"; Idx 0; Key "scopeSpans"; Idx 0; Key "spans"; Idx i].

(** The string field [field] of the object at [path]. *)
Definition string_at (path : list subscript) (field : string) (j : json)
  : option string :=
  match select (path ++ [Key field]) j with
  | Some (JStr s) => Some s
  | _ => None
  end.

(** The integer a string field holds, read back with [int]. *)
Definition int_at (path : list subscript) (field : string) (j : json)
  : option Z :=
  match string_at path field j with
  | Some s => int s
  | None => None
  end.

(** The requests of the three calls in the script. *)
Definition logs_request (g : Globals) : Request :=
  request_of "logs" (logs_payload (current_time_ns g)).

Definition metrics_request (g : Globals) : Request :=
  request_of "metrics" (metrics_payload (current_time_ns g) (randint_0_100 g)).

Definition traces_request (g : Globals) : Request :=
  request_of "traces"
    (trace_payload (current_time_ns g) (trace_id_hex g)
       (parent_span_id_hex g) (child_span_id_hex g)).

(** The last lines of every run: the three ids, the summary, and the
    closing message [closing]. *)
Definition closing_lines (g : Globals) (success_count : Z) (closing : string)
  : list event :=
  [EPrint ("Generated traceId: " ++ trace_id_hex g);
   EPrint ("Generated parent spanId: " ++ parent_span_id_hex g);
   EPrint ("Generated child spanId: " ++ child_span_id_hex g);
   EPrint (newline ++ "Summary: " ++ str success_count
           ++ "/3 operations completed successfully");
   EPrint closing].

(** The shape the three reporting blocks share, with the label that
    tells them apart ("Logs", "Metrics", "Traces"). *)
Definition report (label : string) (success_count : Z) (res : SendResult)
  : M (bool * Z) :=
  let '(success, result) := res in
  if success then
    response <- attributes_of result ;;
    print [label ++ " Status code:"; str (status_code response)] ;;
    print [label ++ " Response body:"; text response] ;;
    ret (success, success_count + 1)
  else
    print [label ++ " Error: " ++ result_str result] ;;
    ret (success, success_count).

(** Sample environments for concrete runs: a fixed clock, generator and
    entropy stream, and the given network. *)
Definition sample_env (net : nat -> post_outcome) : Env :=
  mkEnv (fun _ => 1700000000000000000) (fun _ => 42) (fun _ => x2a) net.

Definition response_with (status : Z) (reason : string) : Response :=
  mkResponse status reason "{}" "http://localhost:4318/v1/logs".

(** A collector that is down for the first POST and up afterwards. *)
Definition flaky_network (k : nat) : post_outcome :=
  match k with
  | O => Fails ConnectionError "Connection refused"
  | _ => Responds (response_with 200 "OK")
  end.

(** A collector that answers every POST with [503]. *)
Definition unavailable_network (k : nat) : post_outcome :=
  Responds (response_with 503 "Service Unavailable").

(** A server that answers every POST with [304 Not Modified]. *)
Definition not_modified_network (k : nat) : post_outcome :=
  Responds (response_with 304 "Not Modified").

(** POSTs and delays of one call that makes [k] POSTs: a delay of 2
    seconds between consecutive POSTs, none before the first or after
    the last. *)
Definition call_io (req : Request) (k : nat) : list event :=
  (List.concat (repeat [EPost req; ESleep 2] (k - 1)) ++ [EPost req])%list.

(** The closing message for a given number of successful sends. *)
Definition closing_message (success_count : Z) : string :=
  if success_count =? 0 then
    "All telemetry operations failed. Check if the OpenTelemetry endpoint is available."
  else if success_count <? total_operations then
    "Some telemetry operations failed. Check the logs for details."
  else "All telemetry operations completed successfully.".

(** The lines a reporting block prints after its call returned. *)
Definition report_lines (label : string) (res : SendResult) : list event :=
  match res with
  | (true, inl r) =>
      [EPrint (label ++ " Status code: " ++ str (status_code r));
       EPrint (label ++ " Response body: " ++ text r)]
  | (_, result) => [EPrint (label ++ " Error: " ++ result_str result)]
  end.

(** A collector whose first answer is a connect timeout, an exception
    that is both a [ConnectionError] and a [Timeout]. *)
Definition slow_network (k : nat) : post_outcome :=
  match k with
  | O => Fails ConnectTimeout "connect timed out"
  | _ => Responds (response_with 200 "OK")
  end.

(** A collector that accepts every POST. *)
Definition healthy_network (k : nat) : post_outcome :=
  Responds (response_with 200 "OK").

(** A failing response read as any answer that is not a 2xx response:
    an exception, or a response whose status is outside 200..299. *)
Definition not_2xx_outcome (o : post_outcome) : bool :=
  match o with
  | Responds r => negb (is_2xx (status_code r))
  | Fails _ _ => true
  end.

(** A server that answers the first POST with [304 Not Modified] and
    every later one with [200 OK]. *)
Definition not_modified_then_ok (k : nat) : post_outcome :=
  match k with
  | O => Responds (response_with 304 "Not Modified")
  | _ => Responds (response_with 200 "OK")
  end.

(** ** Concrete runs *)

Example str_examples :
  (str 0, str 3, str (-5), str 1700000000000000000) =
  ("0", "3", "-5", "1700000000000000000").
Proof. reflexivity. Qed.

Example hex_example : hex [x00; xff; x2a] = "00ff2a".
Proof. reflexivity. Qed.

Example range_example : range 3 = [0; 1; 2].
Proof. reflexivity. Qed.

(** The collector refuses the first connection only: logs go through on
    the second attempt, metrics and traces on the first; four POSTs, one
    delay, exit status 0. *)
Example flaky_run :
  let '(o, w) := run (sample_env flaky_network) in
  (exit_status o, posts_issued w, sleeps_in (trace w), clock_reads w) =
  (0, 4%nat, [2], 1%nat).
Proof. vm_compute. reflexivity. Qed.

(** The collector answers 503 to everything: nine POSTs, six delays,
    exit status 1. *)
Example unavailable_run :
  let '(o, w) := run (sample_env unavailable_network) in
  (exit_status o, posts_issued w, sleeps_in (trace w)) =
  (1, 9%nat, [2; 2; 2; 2; 2; 2]).
Proof. vm_compute. reflexivity. Qed.

(** ** Basic facts *)

Lemma world_ext (w1 w2 : World) :
  clock_reads w1 = clock_reads w2 ->
  prng_draws w1 = prng_draws w2 ->
  entropy_read w1 = entropy_read w2 ->
  posts_issued w1 = posts_issued w2 ->
  trace w1 = trace w2 ->
  w1 = w2.
Proof.
  destruct w1, w2; simpl; intros; subst; reflexivity.
Qed.

Lemma advance_0 (w : World) : advance w 0 [] = w.
Proof.
  apply world_ext; simpl; auto using app_nil_r with arith.
Qed.

Lemma advance_advance (w : World) (a b : nat) (x y : list event) :
  advance (advance w a x) b y = advance w (a + b) (x ++ y).
Proof.
  apply world_ext; simpl; auto using app_assoc with arith.
Qed.

Lemma posts_in_app (a b : list event) :
  posts_in (a ++ b) = (posts_in a ++ posts_in b)%list.
Proof.
  induction a as [|[l|r|s] a IH]; simpl; rewrite ?IH; reflexivity.
Qed.

Lemma sleeps_in_app (a b : list event) :
  sleeps_in (a ++ b) = (sleeps_in a ++ sleeps_in b)%list.
Proof.
  induction a as [|[l|r|s] a IH]; simpl; rewrite ?IH; reflexivity.
Qed.

Lemma io_events_app (a b : list event) :
  io_events (a ++ b) = (io_events a ++ io_events b)%list.
Proof.
  induction a as [|[l|r|s] a IH]; simpl; rewrite ?IH; reflexivity.
Qed.

Lemma posts_in_io (tr : list event) : posts_in (io_events tr) = posts_in tr.
Proof.
  induction tr as [|[l|r|s] tr IH]; simpl; rewrite ?IH; reflexivity.
Qed.

Lemma sleeps_in_io (tr : list event) : sleeps_in (io_events tr) = sleeps_in tr.
Proof.
  induction tr as [|[l|r|s] tr IH]; simpl; rewrite ?IH; reflexivity.
Qed.

(** Running a sequence: the first part's value feeds the rest. *)
Lemma bind_val {A B} (m : M A) (k : A -> M B) (w w' : World) (a : A) :
  m w = (Val a, w') -> bind m k w = k a w'.
Proof.
  unfold bind; intros ->; reflexivity.
Qed.

Lemma bind_raise {A B} (m : M A) (k : A -> M B) (w w' : World) (e : exn) :
  m w = (Raise e, w') -> bind m k w = (Raise e, w').
Proof.
  unfold bind; intros ->; reflexivity.
Qed.

Lemma emit_run (e : event) (w : World) : emit e w = (Val tt, advance w 0 [e]).
Proof.
  unfold emit, advance; f_equal; apply world_ext; simpl; auto with arith.
Qed.

Lemma print_run (args : list string) (w : World) :
  print args w = (Val tt, advance w 0 [EPrint (String.concat " " args)]).
Proof.
  apply emit_run.
Qed.

Lemma requests_post_run env url hs payload w :
  requests_post env url hs payload w =
  (match network env (posts_issued w) with
   | Responds r => Val r
   | Fails cls msg => Raise (RequestsExc cls msg)
   end, advance w 1 [EPost (mkRequest url hs payload)]).
Proof.
  unfold requests_post.
  assert (E : mkWorld (clock_reads w) (prng_draws w) (entropy_read w)
                (S (posts_issued w))
                (trace w ++ [EPost (mkRequest url hs payload)])
              = advance w 1 [EPost (mkRequest url hs payload)]).
  { apply world_ext; simpl; auto; lia. }
  rewrite E; destruct (network env (posts_issued w)); reflexivity.
Qed.

Lemma raise_for_status_run (r : Response) (w : World) :
  (attempt_fails (Responds r) = true /\
   exists msg, raise_for_status r w = (Raise (RequestsExc HTTPError msg), w)) \/
  (attempt_fails (Responds r) = false /\ raise_for_status r w = (Val tt, w)).
Proof.
  unfold raise_for_status, attempt_fails, raise, ret.
  destruct (400 <=? status_code r) eqn:E4;
    destruct (status_code r <? 500) eqn:E5;
    destruct (500 <=? status_code r) eqn:E6;
    destruct (status_code r <? 600) eqn:E7; simpl;
    try (left; split; [reflexivity | eexists; reflexivity]);
    try (right; split; reflexivity); exfalso; lia.
Qed.

(** ** One attempt *)

Lemma try_except_val {A} (body : M A) (handler : exn -> M A) w w' a :
  body w = (Val a, w') -> try_except body handler w = (Val a, w').
Proof.
  unfold try_except; intros ->; reflexivity.
Qed.

Lemma try_except_raise {A} (body : M A) (handler : exn -> M A) w w' e :
  body w = (Raise e, w') -> try_except body handler w = handler e w'.
Proof.
  unfold try_except; intros ->; reflexivity.
Qed.

Section Attempt.

Variable env : Env.
Variables (url : string) (payload : json) (telemetry_type : string).

Let req : Request := mkRequest url headers payload.

(** The suite up to and including the POST. *)
Lemma try_suite_posts (attempt : Z) (w : World) :
  try_suite env url payload telemetry_type attempt w =
  match network env (posts_issued w) with
  | Responds r =>
      (raise_for_status r ;; ret (Some (true, inl r)))
        (advance w 1 [sending_line telemetry_type attempt; EPost req])
  | Fails cls msg =>
      (Raise (RequestsExc cls msg),
       advance w 1 [sending_line telemetry_type attempt; EPost req])
  end.
Proof.
  unfold try_suite.
  erewrite bind_val by apply print_run.
  unfold bind at 1.
  rewrite requests_post_run, advance_advance.
  cbn [posts_issued advance]. rewrite Nat.add_0_r.
  destruct (network env (posts_issued w)); reflexivity.
Qed.

Lemma try_suite_fails (attempt : Z) (w : World) :
  attempt_fails (network env (posts_issued w)) = true ->
  exists cls msg,
    try_suite env url payload telemetry_type attempt w =
    (Raise (RequestsExc cls msg),
     advance w 1 [sending_line telemetry_type attempt; EPost req]).
Proof.
  intros F. rewrite try_suite_posts.
  destruct (network env (posts_issued w)) as [r | cls msg].
  - destruct (raise_for_status_run r
                (advance w 1 [sending_line telemetry_type attempt; EPost req]))
      as [[_ [msg E]] | [C _]]; [| congruence].
    erewrite bind_raise by exact E. do 2 eexists; reflexivity.
  - do 2 eexists; reflexivity.
Qed.

Lemma try_suite_succeeds (attempt : Z) (w : World) (r : Response) :
  network env (posts_issued w) = Responds r ->
  attempt_fails (Responds r) = false ->
  try_suite env url payload telemetry_type attempt w =
  (Val (Some (true, inl r)),
   advance w 1 [sending_line telemetry_type attempt; EPost req]).
Proof.
  intros N F. rewrite try_suite_posts, N.
  destruct (raise_for_status_run r
              (advance w 1 [sending_line telemetry_type attempt; EPost req]))
    as [[C _] | [_ E]]; [congruence |].
  erewrite bind_val by exact E. reflexivity.
Qed.

(** Each class of the [requests] family is caught by one of the three
    clauses, which prints one line. *)
Lemma except_clauses_catch (cls : requests_class) (msg : string) (w : World) :
  exists line,
    except_clauses url telemetry_type (RequestsExc cls msg) w =
    (Val None, advance w 0 [EPrint line]).
Proof.
  unfold except_clauses.
  destruct cls; cbn [isinstance issubclass];
    (erewrite bind_val by apply print_run); eexists; reflexivity.
Qed.

(** A failing attempt falls through to the code after the [try]. *)
Lemma try_post_fails (attempt : Z) (w : World) :
  attempt_fails (network env (posts_issued w)) = true ->
  exists line,
    try_post env url payload telemetry_type attempt w =
    (Val None,
     advance w 1 [sending_line telemetry_type attempt; EPost req; EPrint line]).
Proof.
  intros F. unfold try_post.
  destruct (try_suite_fails attempt w F) as (cls & msg & E).
  erewrite try_except_raise by exact E.
  destruct (except_clauses_catch cls msg
              (advance w 1 [sending_line telemetry_type attempt; EPost req]))
    as [line C].
  rewrite C, advance_advance. exists line; reflexivity.
Qed.

(** An attempt that does not fail returns [(True, response)]. *)
Lemma try_post_succeeds (attempt : Z) (w : World) (r : Response) :
  network env (posts_issued w) = Responds r ->
  attempt_fails (Responds r) = false ->
  try_post env url payload telemetry_type attempt w =
  (Val (Some (true, inl r)),
   advance w 1 [sending_line telemetry_type attempt; EPost req]).
Proof.
  intros N F. unfold try_post.
  erewrite try_except_val by (apply try_suite_succeeds; eassumption).
  reflexivity.
Qed.

End Attempt.

(** ** The retry loop *)

Section Loop.

Variable env : Env.
Variables (url : string) (payload : json) (telemetry_type : string).

Let req : Request := mkRequest url headers payload.

Lemma pause_run (attempt : Z) (w : World) :
  (if attempt <? MAX_RETRIES - 1
   then print ["Retrying in " ++ str RETRY_DELAY ++ " seconds..."] ;;
        time_sleep RETRY_DELAY
   else ret tt) w = (Val tt, advance w 0 (pause_after attempt)).
Proof.
  unfold pause_after. destruct (attempt <? MAX_RETRIES - 1).
  - erewrite bind_val by apply print_run.
    unfold time_sleep. rewrite emit_run, advance_advance. reflexivity.
  - unfold ret. rewrite advance_0. reflexivity.
Qed.

Lemma for_attempt_in_cons_fails (attempt : Z) (rest : list Z) (w : World) :
  attempt_fails (network env (posts_issued w)) = true ->
  exists line,
    for_attempt_in env (attempt :: rest) url payload telemetry_type w =
    for_attempt_in env rest url payload telemetry_type
      (advance w 1 ([sending_line telemetry_type attempt; EPost req; EPrint line]
                    ++ pause_after attempt)).
Proof.
  intros F. destruct (try_post_fails env url payload telemetry_type attempt w F)
    as [line E].
  exists line. cbn [for_attempt_in].
  erewrite bind_val by exact E. cbv beta iota.
  erewrite bind_val by apply pause_run.
  rewrite advance_advance. reflexivity.
Qed.

Lemma for_attempt_in_cons_succeeds (attempt : Z) (rest : list Z) (w : World)
    (r : Response) :
  network env (posts_issued w) = Responds r ->
  attempt_fails (Responds r) = false ->
  for_attempt_in env (attempt :: rest) url payload telemetry_type w =
  (Val (true, inl r),
   advance w 1 [sending_line telemetry_type attempt; EPost req]).
Proof.
  intros N F. cbn [for_attempt_in].
  erewrite bind_val
    by (apply try_post_succeeds; eassumption).
  reflexivity.
Qed.

Lemma io_events_round (attempt : Z) (line : string) :
  io_events ([sending_line telemetry_type attempt; EPost req; EPrint line]
             ++ pause_after attempt)
  = failed_rounds req [attempt].
Proof.
  unfold pause_after, failed_rounds. cbn [flat_map].
  destruct (attempt <? MAX_RETRIES - 1); reflexivity.
Qed.

Lemma failed_rounds_cons (a : Z) (l : list Z) :
  failed_rounds req (a :: l) = (failed_rounds req [a] ++ failed_rounds req l)%list.
Proof.
  unfold failed_rounds. cbn [flat_map]. rewrite app_nil_r. reflexivity.
Qed.

(** [n] failing attempts, then one that does not fail. *)
Lemma for_attempt_in_retries (n : nat) :
  forall (attempts : list Z) (w : World) (r : Response),
    (n < List.length attempts)%nat ->
    (forall i, (i < n)%nat ->
               attempt_fails (network env (posts_issued w + i)) = true) ->
    network env (posts_issued w + n) = Responds r ->
    attempt_fails (Responds r) = false ->
    exists new pre,
      for_attempt_in env attempts url payload telemetry_type w =
      (Val (true, inl r), advance w (S n) new) /\
      new = (pre ++ [EPost req])%list /\
      io_events new = (failed_rounds req (firstn n attempts) ++ [EPost req])%list.
Proof.
  induction n as [|n IH]; intros attempts w r Hlen Hfail Hok Hr.
  - destruct attempts as [|a rest]; [simpl in Hlen; lia |].
    rewrite Nat.add_0_r in Hok.
    exists [sending_line telemetry_type a; EPost req],
           [sending_line telemetry_type a].
    split; [apply for_attempt_in_cons_succeeds; assumption |].
    split; reflexivity.
  - destruct attempts as [|a rest]; [simpl in Hlen; lia |].
    simpl in Hlen.
    assert (F0 : attempt_fails (network env (posts_issued w)) = true).
    { rewrite <- (Nat.add_0_r (posts_issued w)). apply Hfail. lia. }
    destruct (for_attempt_in_cons_fails a rest w F0) as [line E].
    set (round := ([sending_line telemetry_type a; EPost req; EPrint line]
                   ++ pause_after a)%list) in *.
    destruct (IH rest (advance w 1 round) r) as (new & pre & R & P & I).
    + lia.
    + intros i Hi. cbn [posts_issued advance].
      replace (posts_issued w + 1 + i)%nat with (posts_issued w + S i)%nat by lia.
      apply Hfail. lia.
    + cbn [posts_issued advance].
      replace (posts_issued w + 1 + n)%nat with (posts_issued w + S n)%nat by lia.
      exact Hok.
    + exact Hr.
    + exists (round ++ new)%list, (round ++ pre)%list.
      rewrite E, R, advance_advance. split; [reflexivity |]. split.
      * rewrite P, app_assoc. reflexivity.
      * cbn [firstn]. rewrite (failed_rounds_cons a (firstn n rest)).
        rewrite io_events_app, I. unfold round.
        rewrite io_events_round, app_assoc. reflexivity.
Qed.

(** Every attempt fails: the loop runs out and the final [return] is
    reached. *)
Lemma for_attempt_in_exhausted :
  forall (attempts : list Z) (w : World),
    (forall i, (i < List.length attempts)%nat ->
               attempt_fails (network env (posts_issued w + i)) = true) ->
    exists new,
      for_attempt_in env attempts url payload telemetry_type w =
      (Val (false, inr (failure_message telemetry_type)),
       advance w (List.length attempts) new) /\
      io_events new = failed_rounds req attempts.
Proof.
  induction attempts as [|a rest IH]; intros w Hfail.
  - exists []. rewrite advance_0. split; reflexivity.
  - assert (F0 : attempt_fails (network env (posts_issued w)) = true).
    { rewrite <- (Nat.add_0_r (posts_issued w)). apply Hfail. simpl; lia. }
    destruct (for_attempt_in_cons_fails a rest w F0) as [line E].
    set (round := ([sending_line telemetry_type a; EPost req; EPrint line]
                   ++ pause_after a)%list) in *.
    destruct (IH (advance w 1 round)) as (new & R & I).
    + intros i Hi. cbn [posts_issued advance].
      replace (posts_issued w + 1 + i)%nat with (posts_issued w + S i)%nat by lia.
      apply Hfail. simpl; lia.
    + exists (round ++ new)%list.
      rewrite E, R, advance_advance. split; [reflexivity |].
      rewrite (failed_rounds_cons a rest), io_events_app, I. unfold round.
      rewrite io_events_round. reflexivity.
Qed.

(** Whatever the network does, the loop ends in a returned result. *)
Lemma for_attempt_in_total :
  forall (attempts : list Z) (w : World),
    exists res k new,
      for_attempt_in env attempts url payload telemetry_type w =
      (Val res, advance w k new) /\
      ((exists r, res = (true, inl r) /\ attempt_fails (Responds r) = false) \/
       (res = (false, inr (failure_message telemetry_type)) /\
        k = List.length attempts)) /\
      (k <= List.length attempts)%nat /\
      posts_in new = repeat req k /\
      (attempts <> [] -> exists line rest, new = EPrint line :: EPost req :: rest).
Proof.
  induction attempts as [|a rest IH]; intros w.
  - exists (false, inr (failure_message telemetry_type)), 0%nat, [].
    rewrite advance_0. repeat split; auto. congruence.
  - destruct (attempt_fails (network env (posts_issued w))) eqn:F.
    + destruct (for_attempt_in_cons_fails a rest w F) as [line E].
      set (round := ([sending_line telemetry_type a; EPost req; EPrint line]
                     ++ pause_after a)%list) in *.
      destruct (IH (advance w 1 round)) as (res & k & new & R & S & K & P & _).
      exists res, (1 + k)%nat, (round ++ new)%list.
      rewrite E, R, advance_advance. repeat split; auto.
      * destruct S as [S | [S ->]]; [left; exact S | right; split; auto].
      * simpl; lia.
      * rewrite posts_in_app, P. unfold round, pause_after.
        destruct (a <? MAX_RETRIES - 1); reflexivity.
      * intros _. eexists _, _. unfold round, sending_line. reflexivity.
    + destruct (network env (posts_issued w)) as [r | cls msg] eqn:N;
        [| discriminate F].
      exists (true, inl r), 1%nat, [sending_line telemetry_type a; EPost req].
      rewrite (for_attempt_in_cons_succeeds a rest w r N F).
      repeat split; eauto.
      * simpl; lia.
      * intros _. eexists _, _. unfold sending_line. reflexivity.
Qed.

End Loop.

(** ** [send_telemetry] *)

Lemma range_MAX_RETRIES : range MAX_RETRIES = [0; 1; 2].
Proof. reflexivity. Qed.

Lemma is_2xx_not_failure (r : Response) :
  is_2xx (status_code r) = true -> attempt_fails (Responds r) = false.
Proof.
  unfold is_2xx, attempt_fails. intros H.
  apply andb_true_iff in H as [H1 H2].
  apply Z.leb_le in H1. apply Z.ltb_lt in H2.
  apply andb_false_iff. left. apply Z.leb_gt. lia.
Qed.

(** C1, amended.  For every endpoint, payload and telemetry type and
    every [N < 3]: when each of the first [N] POSTs of a call fails by a
    [requests] exception or a 4xx/5xx response and POST [N + 1] is
    answered with a 2xx status, [send_telemetry] returns
    [(True, response)] with that response, having made exactly [N + 1]
    POSTs and exactly [N] delays of 2 seconds, one after each failed
    attempt and none after the last POST, which is the last event of the
    call. *)
Theorem send_telemetry_success_after_failures
    (env : Env) (endpoint : string) (payload : json) (telemetry_type : string)
    (w : World) (N : nat) (r : Response) :
  (N < 3)%nat ->
  (forall i, (i < N)%nat ->
             attempt_fails (network env (posts_issued w + i)) = true) ->
  network env (posts_issued w + N) = Responds r ->
  is_2xx (status_code r) = true ->
  exists new pre,
    send_telemetry env endpoint payload telemetry_type w =
    (Val (true, inl r), advance w (N + 1) new) /\
    new = (pre ++ [EPost (request_of endpoint payload)])%list /\
    io_events new =
      (List.concat (repeat [EPost (request_of endpoint payload); ESleep 2] N)
       ++ [EPost (request_of endpoint payload)])%list /\
    List.length (posts_in new) = (N + 1)%nat /\
    sleeps_in new = repeat 2 N.
Proof.
  intros HN Hfail Hok H2xx.
  unfold send_telemetry. rewrite range_MAX_RETRIES.
  destruct (for_attempt_in_retries env (url_base ++ "/" ++ endpoint) payload
              telemetry_type N [0; 1; 2] w r)
    as (new & pre & R & P & I); auto using is_2xx_not_failure.
  exists new, pre. rewrite R, Nat.add_1_r.
  assert (IO : io_events new =
               (List.concat (repeat [EPost (request_of endpoint payload); ESleep 2] N)
                ++ [EPost (request_of endpoint payload)])%list).
  { rewrite I. destruct N as [|[|[|N]]]; try reflexivity. lia. }
  repeat split; auto.
  - rewrite <- posts_in_io, IO. destruct N as [|[|[|N]]]; try reflexivity. lia.
  - rewrite <- sleeps_in_io, IO. destruct N as [|[|[|N]]]; try reflexivity. lia.
Qed.

(** C2, amended.  For every endpoint, payload and telemetry type: when
    each of the three POSTs of a call fails by a [requests] exception or
    a 4xx/5xx response, [send_telemetry] makes exactly 3 POSTs and
    exactly 2 delays (none after the third POST) and returns
    [(False, "Failed to send <type> after 3 attempts")]. *)
Theorem send_telemetry_failure_after_three_attempts
    (env : Env) (endpoint : string) (payload : json) (telemetry_type : string)
    (w : World) :
  (forall i, (i < 3)%nat ->
             attempt_fails (network env (posts_issued w + i)) = true) ->
  exists new,
    send_telemetry env endpoint payload telemetry_type w =
    (Val (false, inr ("Failed to send " ++ telemetry_type ++ " after 3 attempts")),
     advance w 3 new) /\
    io_events new =
      [EPost (request_of endpoint payload); ESleep 2;
       EPost (request_of endpoint payload); ESleep 2;
       EPost (request_of endpoint payload)] /\
    List.length (posts_in new) = 3%nat /\
    sleeps_in new = [2; 2].
Proof.
  intros Hfail.
  unfold send_telemetry. rewrite range_MAX_RETRIES.
  destruct (for_attempt_in_exhausted env (url_base ++ "/" ++ endpoint) payload
              telemetry_type [0; 1; 2] w Hfail) as (new & R & I).
  exists new. rewrite R. split; [reflexivity |].
  assert (IO : io_events new =
               [EPost (request_of endpoint payload); ESleep 2;
                EPost (request_of endpoint payload); ESleep 2;
                EPost (request_of endpoint payload)]) by (rewrite I; reflexivity).
  repeat split; auto.
  - rewrite <- posts_in_io, IO. reflexivity.
  - rewrite <- sleeps_in_io, IO. reflexivity.
Qed.

(** C1, amended, at a concrete run: the collector refuses the first
    connection and accepts the second POST. *)
Lemma send_telemetry_success_after_failures_witness :
  exists new pre,
    send_telemetry (sample_env flaky_network) "logs" (logs_payload 7) "logs"
      initial_world =
    (Val (true, inl (response_with 200 "OK")), advance initial_world (1 + 1) new) /\
    new = (pre ++ [EPost (request_of "logs" (logs_payload 7))])%list /\
    io_events new =
      (List.concat (repeat [EPost (request_of "logs" (logs_payload 7)); ESleep 2] 1)
       ++ [EPost (request_of "logs" (logs_payload 7))])%list /\
    List.length (posts_in new) = (1 + 1)%nat /\
    sleeps_in new = repeat 2 1.
Proof.
  apply (send_telemetry_success_after_failures (sample_env flaky_network)
           "logs" (logs_payload 7) "logs" initial_world 1
           (response_with 200 "OK")).
  - lia.
  - intros i Hi. destruct i as [|i]; [reflexivity | lia].
  - reflexivity.
  - reflexivity.
Defined.

(** C2, amended, at a concrete run: the collector answers 503 three
    times. *)
Lemma send_telemetry_failure_after_three_attempts_witness :
  exists new,
    send_telemetry (sample_env unavailable_network) "traces"
      (trace_payload 7 "" "" "") "traces" initial_world =
    (Val (false, inr "Failed to send traces after 3 attempts"),
     advance initial_world 3 new) /\
    io_events new =
      [EPost (request_of "traces" (trace_payload 7 "" "" "")); ESleep 2;
       EPost (request_of "traces" (trace_payload 7 "" "" "")); ESleep 2;
       EPost (request_of "traces" (trace_payload 7 "" "" ""))] /\
    List.length (posts_in new) = 3%nat /\
    sleeps_in new = [2; 2].
Proof.
  apply (send_telemetry_failure_after_three_attempts
           (sample_env unavailable_network) "traces" (trace_payload 7 "" "" "")
           "traces" initial_world).
  intros i _. reflexivity.
Defined.

(** C1 as stated fails when "fail" means any answer that is not 2xx:
    with [N = 1], the first answer is a 304 and the second would be a
    200, yet the call returns [(True, response)] with the 304 after one
    POST and no delay, not the 200 after two POSTs and one delay. *)
Lemma non_2xx_answer_is_not_retried :
  not_2xx_outcome
    (network (sample_env not_modified_then_ok) (posts_issued initial_world + 0))
    = true /\
  network (sample_env not_modified_then_ok) (posts_issued initial_world + 1)
    = Responds (response_with 200 "OK") /\
  is_2xx (status_code (response_with 200 "OK")) = true /\
  send_telemetry (sample_env not_modified_then_ok) "logs" (logs_payload 7)
    "logs" initial_world =
    (Val (true, inl (response_with 304 "Not Modified")),
     advance initial_world 1
       [sending_line "logs" 0; EPost (request_of "logs" (logs_payload 7))]) /\
  fst (send_telemetry (sample_env not_modified_then_ok) "logs" (logs_payload 7)
         "logs" initial_world)
    <> Val (true, inl (response_with 200 "OK")) /\
  List.length (posts_in (trace (snd (send_telemetry
     (sample_env not_modified_then_ok) "logs" (logs_payload 7) "logs"
     initial_world)))) <> (1 + 1)%nat /\
  sleeps_in (trace (snd (send_telemetry
     (sample_env not_modified_then_ok) "logs" (logs_payload 7) "logs"
     initial_world))) <> repeat 2 1.
Proof.
  repeat split; try reflexivity; vm_compute; discriminate.
Qed.

(** C2 as stated fails when "fail" means any answer that is not 2xx:
    all three answers are a 304, yet the call returns
    [(True, response)] after one POST and no delay, not a failure
    result after three POSTs and two delays. *)
Lemma three_non_2xx_answers_are_a_success :
  not_2xx_outcome
    (network (sample_env not_modified_network) (posts_issued initial_world + 0))
    = true /\
  not_2xx_outcome
    (network (sample_env not_modified_network) (posts_issued initial_world + 1))
    = true /\
  not_2xx_outcome
    (network (sample_env not_modified_network) (posts_issued initial_world + 2))
    = true /\
  send_telemetry (sample_env not_modified_network) "metrics"
    (metrics_payload 7 42) "metrics" initial_world =
    (Val (true, inl (response_with 304 "Not Modified")),
     advance initial_world 1
       [sending_line "metrics" 0;
        EPost (request_of "metrics" (metrics_payload 7 42))]) /\
  fst (send_telemetry (sample_env not_modified_network) "metrics"
         (metrics_payload 7 42) "metrics" initial_world)
    <> Val (false, inr "Failed to send metrics after 3 attempts") /\
  List.length (posts_in (trace (snd (send_telemetry
     (sample_env not_modified_network) "metrics" (metrics_payload 7 42)
     "metrics" initial_world)))) <> 3%nat /\
  sleeps_in (trace (snd (send_telemetry
     (sample_env not_modified_network) "metrics" (metrics_payload 7 42)
     "metrics" initial_world))) <> [2; 2].
Proof.
  repeat split; try reflexivity; vm_compute; discriminate.
Qed.

(** C4 as stated fails: a response with status 304 is outside the 2xx
    range, [raise_for_status] does not raise for it, and the first
    attempt returns [(True, response)]. *)
Lemma status_304_is_returned_as_success :
  is_2xx (status_code (response_with 304 "Not Modified")) = false /\
  network (sample_env not_modified_network) (posts_issued initial_world) =
    Responds (response_with 304 "Not Modified") /\
  fst (send_telemetry (sample_env not_modified_network) "logs" (logs_payload 7)
         "logs" initial_world) =
    Val (true, inl (response_with 304 "Not Modified")) /\
  List.length (posts_in (trace (snd (send_telemetry
     (sample_env not_modified_network) "logs" (logs_payload 7) "logs"
     initial_world)))) = 1%nat.
Proof.
  repeat split; reflexivity.
Qed.

(** C4, amended.  For every response whose status is in the 4xx or 5xx
    range ([400 <= status < 600]), the attempt that received it does not
    return: [raise_for_status] raises, the third [except] clause prints
    one line, and control falls through to the code after the [try]. *)
Theorem status_4xx_5xx_fails_the_attempt
    (env : Env) (url : string) (payload : json) (telemetry_type : string)
    (attempt : Z) (w : World) (r : Response) :
  network env (posts_issued w) = Responds r ->
  400 <= status_code r < 600 ->
  exists line,
    try_post env url payload telemetry_type attempt w =
    (Val None,
     advance w 1 [sending_line telemetry_type attempt;
                  EPost (mkRequest url headers payload); EPrint line]).
Proof.
  intros N S. apply try_post_fails. rewrite N. unfold attempt_fails.
  apply andb_true_iff. split; [apply Z.leb_le | apply Z.ltb_lt]; lia.
Qed.

Lemma status_4xx_5xx_fails_the_attempt_witness :
  exists line,
    try_post (sample_env unavailable_network) "http://localhost:4318/v1/logs"
      (logs_payload 7) "logs" 0 initial_world =
    (Val None,
     advance initial_world 1
       [sending_line "logs" 0;
        EPost (mkRequest "http://localhost:4318/v1/logs" headers (logs_payload 7));
        EPrint line]).
Proof.
  apply (status_4xx_5xx_fails_the_attempt (sample_env unavailable_network)
           "http://localhost:4318/v1/logs" (logs_payload 7) "logs" 0
           initial_world (response_with 503 "Service Unavailable")).
  - reflexivity.
  - simpl. lia.
Defined.

(** C10.  Whatever the network does, every POST of one call of
    [send_telemetry] carries the same request: the URL
    [http://localhost:4318/v1/<endpoint>], the one header
    [Content-Type: application/json], and the payload exactly as it was
    passed in.  The call makes between 1 and 3 such POSTs. *)
Theorem send_telemetry_posts_one_request
    (env : Env) (endpoint : string) (payload : json) (telemetry_type : string)
    (w : World) :
  exists res k new,
    send_telemetry env endpoint payload telemetry_type w =
    (Val res, advance w k new) /\
    posts_in new =
      repeat (mkRequest ("http://localhost:4318/v1/" ++ endpoint)
                [("Content-Type", "application/json")] payload) k /\
    (1 <= k <= 3)%nat.
Proof.
  unfold send_telemetry. rewrite range_MAX_RETRIES.
  destruct (for_attempt_in_total env (url_base ++ "/" ++ endpoint) payload
              telemetry_type [0; 1; 2] w)
    as (res & k & new & R & _ & K & P & H).
  exists res, k, new. split; [exact R |]. split; [exact P |].
  simpl in K. split; [| exact K].
  destruct H as (line & rest & ->); [discriminate |].
  destruct k; [discriminate P | lia].
Qed.

(** ** The script as a whole *)

(** Building the payloads reads the clock once, draws once from the
    generator and reads 32 bytes of entropy; it posts and prints
    nothing. *)
Lemma build_payloads_run (env : Env) (w : World) :
  build_payloads env w =
  (Val (mkGlobals
          (clock env (clock_reads w))
          (0 + prng env (prng_draws w) mod (100 - 0 + 1))
          (hex (map (entropy env) (seq (entropy_read w) 16)))
          (hex (map (entropy env) (seq (entropy_read w + 16) 8)))
          (hex (map (entropy env) (seq (entropy_read w + 16 + 8) 8)))),
   mkWorld (S (clock_reads w)) (S (prng_draws w)) (entropy_read w + 16 + 8 + 8)
     (posts_issued w) (trace w)).
Proof. reflexivity. Qed.

Lemma report_run (label : string) (success_count : Z) (res : SendResult)
    (w : World) :
  (exists r, res = (true, inl r)) \/ (exists message, res = (false, inr message)) ->
  exists lines,
    report label success_count res w =
    (Val (fst res, success_count + Z.b2z (fst res)), advance w 0 lines) /\
    posts_in lines = [].
Proof.
  intros [[r ->] | [message ->]]; unfold report, attributes_of.
  - erewrite bind_val by reflexivity. cbv beta.
    erewrite bind_val by apply print_run. cbv beta.
    erewrite bind_val by apply print_run. cbv beta.
    unfold ret. rewrite advance_advance. eexists; split; reflexivity.
  - erewrite bind_val by apply print_run. cbv beta.
    unfold ret. rewrite Z.add_0_r. eexists; split; reflexivity.
Qed.

Section Blocks.

Variable env : Env.
Variable g : Globals.

(** A [send_telemetry] call followed by its report: the call always
    returns, its first POST is to the block's own endpoint, and the
    block counts the success. *)
Lemma send_and_report_run (endpoint : string) (payload : json) (ty label : string)
    (success_count : Z) (w : World) :
  exists success result k new lines,
    send_telemetry env endpoint payload ty w =
      (Val (success, result), advance w k new) /\
    bind (send_telemetry env endpoint payload ty) (report label success_count) w =
      (Val (success, success_count + Z.b2z success),
       advance w k (new ++ lines)) /\
    (exists line rest,
       new = EPrint line :: EPost (request_of endpoint payload) :: rest).
Proof.
  unfold send_telemetry. rewrite range_MAX_RETRIES.
  destruct (for_attempt_in_total env (url_base ++ "/" ++ endpoint) payload
              ty [0; 1; 2] w)
    as (res & k & new & R & S & _ & _ & H).
  destruct H as (line & rest & H); [discriminate |].
  destruct (report_run label success_count res (advance w k new))
    as (lines & E & _).
  { destruct S as [(r & -> & _) | [-> _]]; eauto. }
  destruct res as [success result].
  exists success, result, k, new, lines.
  split; [exact R |]. split; [| exists line, rest; exact H].
  erewrite bind_val by exact R.
  rewrite E, advance_advance, Nat.add_0_r. reflexivity.
Qed.

Lemma send_logs_eq (success_count : Z) :
  send_logs env g success_count =
  bind (send_telemetry env "logs" (logs_payload (current_time_ns g)) "logs")
    (report "Logs" success_count).
Proof. reflexivity. Qed.

Lemma send_metrics_eq (success_count : Z) :
  send_metrics env g success_count =
  bind (send_telemetry env "metrics"
          (metrics_payload (current_time_ns g) (randint_0_100 g)) "metrics")
    (report "Metrics" success_count).
Proof. reflexivity. Qed.

Lemma send_traces_eq (success_count : Z) :
  send_traces env g success_count =
  bind (send_telemetry env "traces"
          (trace_payload (current_time_ns g) (trace_id_hex g)
             (parent_span_id_hex g) (child_span_id_hex g)) "traces")
    (report "Traces" success_count).
Proof. reflexivity. Qed.

End Blocks.

Lemma print_ids_run (g : Globals) (w : World) :
  print_ids g w =
  (Val tt,
   advance w 0
     [EPrint ("Generated traceId: " ++ trace_id_hex g);
      EPrint ("Generated parent spanId: " ++ parent_span_id_hex g);
      EPrint ("Generated child spanId: " ++ child_span_id_hex g)]).
Proof.
  unfold print_ids.
  erewrite bind_val by apply print_run. cbv beta.
  erewrite bind_val by apply print_run. cbv beta.
  rewrite print_run, !advance_advance. reflexivity.
Qed.

(** The tail of the script, from the printing of the ids to the exit,
    for each of the eight combinations of send results. *)
Lemma closing_run (g : Globals) (s1 s2 s3 : bool) (w : World) :
  exists closing,
    (print_ids g ;;
     print [summary_line (0 + Z.b2z s1 + Z.b2z s2 + Z.b2z s3)] ;;
     exit_with_status (0 + Z.b2z s1 + Z.b2z s2 + Z.b2z s3)) w =
    (Raise (SystemExit (if s1 && s2 && s3 then 0 else 1)),
     advance w 0 (closing_lines g (Z.b2z s1 + Z.b2z s2 + Z.b2z s3) closing)).
Proof.
  erewrite bind_val by apply print_ids_run. cbv beta.
  erewrite bind_val by apply print_run. cbv beta.
  rewrite advance_advance.
  destruct s1, s2, s3; cbn [Z.b2z andb]; unfold exit_with_status;
    match goal with
    | |- context [if ?c then _ else _] =>
        let v := eval vm_compute in c in change c with v
    end; cbv iota;
    try match goal with
    | |- context [if ?c then _ else _] =>
        let v := eval vm_compute in c in change c with v
    end; cbv iota;
    (erewrite bind_val by apply print_run); cbv beta;
    unfold sys_exit, raise; rewrite advance_advance;
    eexists; reflexivity.
Qed.

(** Every run, laid out: the payloads are built, each of the three
    blocks makes its call in the world the previous block left, the
    closing lines are printed, and the process exits. *)
Lemma main_run (env : Env) :
  exists g w0,
    build_payloads env initial_world = (Val g, w0) /\
    exists s1 r1 k1 new1 lines1 s2 r2 k2 new2 lines2 s3 r3 k3 new3 lines3 closing,
      let w1 := advance w0 k1 (new1 ++ lines1) in
      let w2 := advance w1 k2 (new2 ++ lines2) in
      let w3 := advance w2 k3 (new3 ++ lines3) in
      (send_telemetry env "logs" (logs_payload (current_time_ns g)) "logs" w0 =
         (Val (s1, r1), advance w0 k1 new1) /\
       send_logs env g 0 w0 = (Val (s1, 0 + Z.b2z s1), w1) /\
       exists line rest, new1 = EPrint line :: EPost (logs_request g) :: rest) /\
      (send_telemetry env "metrics"
         (metrics_payload (current_time_ns g) (randint_0_100 g)) "metrics" w1 =
         (Val (s2, r2), advance w1 k2 new2) /\
       send_metrics env g (0 + Z.b2z s1) w1 =
         (Val (s2, 0 + Z.b2z s1 + Z.b2z s2), w2) /\
       exists line rest, new2 = EPrint line :: EPost (metrics_request g) :: rest) /\
      (send_telemetry env "traces"
         (trace_payload (current_time_ns g) (trace_id_hex g)
            (parent_span_id_hex g) (child_span_id_hex g)) "traces" w2 =
         (Val (s3, r3), advance w2 k3 new3) /\
       send_traces env g (0 + Z.b2z s1 + Z.b2z s2) w2 =
         (Val (s3, 0 + Z.b2z s1 + Z.b2z s2 + Z.b2z s3), w3) /\
       exists line rest, new3 = EPrint line :: EPost (traces_request g) :: rest) /\
      run env =
        (Raise (SystemExit (if s1 && s2 && s3 then 0 else 1)),
         advance w3 0
           (closing_lines g (Z.b2z s1 + Z.b2z s2 + Z.b2z s3) closing)).
Proof.
  pose proof (build_payloads_run env initial_world) as B.
  match type of B with
  | _ = (Val ?g0, ?w) => set (g := g0) in *; set (w0 := w) in *
  end.
  exists g, w0. split; [exact B |].
  destruct (send_and_report_run env "logs" (logs_payload (current_time_ns g))
              "logs" "Logs" 0 w0)
    as (s1 & r1 & k1 & new1 & lines1 & T1 & E1 & H1).
  destruct (send_and_report_run env "metrics"
              (metrics_payload (current_time_ns g) (randint_0_100 g))
              "metrics" "Metrics" (0 + Z.b2z s1)
              (advance w0 k1 (new1 ++ lines1)))
    as (s2 & r2 & k2 & new2 & lines2 & T2 & E2 & H2).
  destruct (send_and_report_run env "traces"
              (trace_payload (current_time_ns g) (trace_id_hex g)
                 (parent_span_id_hex g) (child_span_id_hex g))
              "traces" "Traces" (0 + Z.b2z s1 + Z.b2z s2)
              (advance (advance w0 k1 (new1 ++ lines1)) k2 (new2 ++ lines2)))
    as (s3 & r3 & k3 & new3 & lines3 & T3 & E3 & H3).
  destruct (closing_run g s1 s2 s3
              (advance (advance (advance w0 k1 (new1 ++ lines1)) k2 (new2 ++ lines2))
                 k3 (new3 ++ lines3)))
    as (closing & C).
  exists s1, r1, k1, new1, lines1, s2, r2, k2, new2, lines2,
         s3, r3, k3, new3, lines3, closing.
  cbv zeta. rewrite send_logs_eq, send_metrics_eq, send_traces_eq.
  repeat split; try assumption.
  unfold run, main.
  erewrite bind_val by exact B. cbv beta zeta.
  rewrite send_logs_eq. erewrite bind_val by exact E1. cbv beta iota.
  rewrite send_metrics_eq. erewrite bind_val by exact E2. cbv beta iota.
  rewrite send_traces_eq. erewrite bind_val by exact E3. cbv beta iota.
  exact C.
Qed.

(** C3.  In every run, with [s1], [s2], [s3] the success flags that the
    three [send_telemetry] calls return (each call made in the world the
    previous block left behind): the exit status is 0 exactly when all
    three are [True], and 1 exactly when at least one is [False],
    all three included. *)
Theorem exit_status_zero_iff_all_sends_succeed (env : Env) :
  exists g w0 s1 r1 u1 c1 w1 s2 r2 u2 c2 w2 s3 r3 u3 c3 w3,
    build_payloads env initial_world = (Val g, w0) /\
    send_telemetry env "logs" (logs_payload (current_time_ns g)) "logs" w0 =
      (Val (s1, r1), u1) /\
    send_logs env g 0 w0 = (Val (s1, c1), w1) /\
    send_telemetry env "metrics"
      (metrics_payload (current_time_ns g) (randint_0_100 g)) "metrics" w1 =
      (Val (s2, r2), u2) /\
    send_metrics env g c1 w1 = (Val (s2, c2), w2) /\
    send_telemetry env "traces"
      (trace_payload (current_time_ns g) (trace_id_hex g)
         (parent_span_id_hex g) (child_span_id_hex g)) "traces" w2 =
      (Val (s3, r3), u3) /\
    send_traces env g c2 w2 = (Val (s3, c3), w3) /\
    (exit_status (fst (run env)) = 0 <->
     s1 = true /\ s2 = true /\ s3 = true) /\
    (exit_status (fst (run env)) = 1 <->
     s1 = false \/ s2 = false \/ s3 = false).
Proof.
  destruct (main_run env)
    as (g & w0 & B & s1 & r1 & k1 & new1 & lines1 & s2 & r2 & k2 & new2 & lines2
        & s3 & r3 & k3 & new3 & lines3 & closing
        & (T1 & E1 & _) & (T2 & E2 & _) & (T3 & E3 & _) & R).
  exists g, w0.
  eexists s1, r1, _, _, _, s2, r2, _, _, _.
  eexists s3, r3, _, _, _.
  repeat (split; [eassumption |]).
  rewrite R. cbn [fst exit_status].
  destruct s1, s2, s3; cbn [andb]; split; split; intros H;
    try discriminate; try tauto; try (decompose [and or] H; discriminate).
Qed.

(** ** The generated payloads *)

Lemma hex_length (bs : list byte) :
  String.length (hex bs) = (2 * List.length bs)%nat.
Proof.
  induction bs as [|b bs IH]; [reflexivity |].
  cbn [hex hex_of_byte append String.length List.length]. rewrite IH. lia.
Qed.

Lemma hex_of_byte_chars (b : byte) :
  all_chars is_hex_char (hex_of_byte b) = true.
Proof.
  destruct b; reflexivity.
Qed.

Lemma all_chars_app (p : ascii -> bool) (s t : string) :
  all_chars p (s ++ t) = all_chars p s && all_chars p t.
Proof.
  induction s as [|c s IH]; [reflexivity |].
  cbn [append all_chars]. rewrite IH. apply andb_assoc.
Qed.

Lemma hex_chars (bs : list byte) : all_chars is_hex_char (hex bs) = true.
Proof.
  induction bs as [|b bs IH]; [reflexivity |].
  cbn [hex]. rewrite all_chars_app, hex_of_byte_chars, IH. reflexivity.
Qed.

Lemma urandom_length (env : Env) (from n : nat) :
  List.length (map (entropy env) (seq from n)) = n.
Proof.
  rewrite length_map. apply length_seq.
Qed.

(** [int] reads back what [str] wrote. *)
Lemma int_str (n : Z) : int (str n) = Some n.
Proof.
  unfold int, str.
  rewrite NilZero.isi.
  - cbn [option_map]. rewrite DecimalZ.of_to. reflexivity.
  - destruct n; cbn; try discriminate.
    intros H; injection H as H.
    exact (DecimalPos.Unsigned.to_uint_nonnil _ H).
  - destruct n; cbn; try discriminate.
    intros H; injection H as H.
    exact (DecimalPos.Unsigned.to_uint_nonnil _ H).
Qed.

(** C6.  In every run the generated trace id is 32 hexadecimal
    characters and the two span ids are 16 hexadecimal characters each;
    in the trace payload the parent span has these ids and no
    [parentSpanId] key, and the child span's [parentSpanId] is the
    parent span's [spanId]. *)
Theorem generated_ids_and_span_links (env : Env) :
  exists g w0,
    build_payloads env initial_world = (Val g, w0) /\
    let spans := trace_payload (current_time_ns g) (trace_id_hex g)
                   (parent_span_id_hex g) (child_span_id_hex g) in
    String.length (trace_id_hex g) = 32%nat /\
    all_chars is_hex_char (trace_id_hex g) = true /\
    String.length (parent_span_id_hex g) = 16%nat /\
    all_chars is_hex_char (parent_span_id_hex g) = true /\
    String.length (child_span_id_hex g) = 16%nat /\
    all_chars is_hex_char (child_span_id_hex g) = true /\
    req_json (traces_request g) = spans /\
    string_at (subscripts_to_span 0) "traceId" spans = Some (trace_id_hex g) /\
    string_at (subscripts_to_span 0) "spanId" spans = Some (parent_span_id_hex g) /\
    select (subscripts_to_span 0 ++ [Key "parentSpanId"]) spans = None /\
    string_at (subscripts_to_span 1) "traceId" spans = Some (trace_id_hex g) /\
    string_at (subscripts_to_span 1) "spanId" spans = Some (child_span_id_hex g) /\
    string_at (subscripts_to_span 1) "parentSpanId" spans =
      string_at (subscripts_to_span 0) "spanId" spans.
Proof.
  eexists _, _. split; [apply build_payloads_run |].
  cbn [trace_id_hex parent_span_id_hex child_span_id_hex current_time_ns].
  rewrite !hex_length, !urandom_length.
  repeat split; try reflexivity; apply hex_chars.
Qed.

(** C7.  In every run, with [t] the one reading of the clock: the parent
    span's window is [t, t + 30_000_000_000], the child span's window is
    [t + 5_000_000_000, t + 15_000_000_000], so the child starts 5 s
    after the parent, lasts 10 s, and its window lies inside the
    parent's. *)
Theorem span_windows (env : Env) :
  exists g w0,
    build_payloads env initial_world = (Val g, w0) /\
    let t := clock env 0 in
    let spans := trace_payload (current_time_ns g) (trace_id_hex g)
                   (parent_span_id_hex g) (child_span_id_hex g) in
    exists parent_start parent_end child_start child_end,
      int_at (subscripts_to_span 0) "startTimeUnixNano" spans = Some parent_start /\
      int_at (subscripts_to_span 0) "endTimeUnixNano" spans = Some parent_end /\
      int_at (subscripts_to_span 1) "startTimeUnixNano" spans = Some child_start /\
      int_at (subscripts_to_span 1) "endTimeUnixNano" spans = Some child_end /\
      parent_start = t /\
      parent_end = t + 30000000000 /\
      child_start = t + 5000000000 /\
      child_end = t + 15000000000 /\
      child_end - child_start = 10000000000 /\
      parent_start <= child_start /\ child_start <= child_end /\
      child_end <= parent_end.
Proof.
  eexists _, _. split; [apply build_payloads_run |].
  cbn [current_time_ns clock_reads initial_world].
  eexists _, _, _, _.
  repeat (split; [apply int_str |]).
  repeat split; lia.
Qed.

(** C8.  In every run the [asInt] value of the gauge's data point is an
    integer between 0 and 100, both included. *)
Theorem gauge_value_between_0_and_100 (env : Env) :
  exists g w0 v,
    build_payloads env initial_world = (Val g, w0) /\
    select (subscripts_to_data_point ++ [Key "asInt"])
      (metrics_payload (current_time_ns g) (randint_0_100 g)) = Some (JInt v) /\
    req_json (metrics_request g) =
      metrics_payload (current_time_ns g) (randint_0_100 g) /\
    0 <= v <= 100.
Proof.
  eexists _, _, _. split; [apply build_payloads_run |].
  split; [reflexivity |]. split; [reflexivity |].
  cbn [randint_0_100].
  pose proof (Z.mod_pos_bound (prng env (prng_draws initial_world)) (100 - 0 + 1)).
  lia.
Qed.

(** C9.  In every run the clock is read once, before anything else, and
    the three payloads that are POSTed all carry that one reading: the
    log record's [timeUnixNano], the data point's [timeUnixNano] and the
    parent span's [startTimeUnixNano] are the decimal string of it. *)
Theorem one_timestamp_in_all_payloads (env : Env) :
  exists g w0,
    build_payloads env initial_world = (Val g, w0) /\
    current_time_ns g = clock env 0 /\
    clock_reads (snd (run env)) = 1%nat /\
    string_at subscripts_to_log_record "timeUnixNano"
      (req_json (logs_request g)) = Some (str (clock env 0)) /\
    string_at subscripts_to_data_point "timeUnixNano"
      (req_json (metrics_request g)) = Some (str (clock env 0)) /\
    string_at (subscripts_to_span 0) "startTimeUnixNano"
      (req_json (traces_request g)) = Some (str (clock env 0)).
Proof.
  destruct (main_run env)
    as (g & w0 & B & s1 & r1 & k1 & new1 & lines1 & s2 & r2 & k2 & new2 & lines2
        & s3 & r3 & k3 & new3 & lines3 & closing & _ & _ & _ & R).
  exists g, w0. split; [exact B |].
  rewrite R. rewrite build_payloads_run in B. injection B as <- <-.
  repeat split; reflexivity.
Qed.

(** ** More about one call *)

Lemma string_app_assoc (a b c : string) : ((a ++ b) ++ c)%string = (a ++ b ++ c)%string.
Proof.
  induction a as [|x a IH]; [reflexivity |].
  cbn [append]. rewrite IH. reflexivity.
Qed.

(** The two ways a call can go: the first attempt that does not fail is
    attempt [N + 1 <= 3] and its response is returned, or all three
    attempts fail. *)
Lemma send_telemetry_cases
    (env : Env) (endpoint : string) (payload : json) (telemetry_type : string)
    (w : World) :
  (exists N r new,
      (N < 3)%nat /\
      (forall i, (i < N)%nat ->
                 attempt_fails (network env (posts_issued w + i)) = true) /\
      network env (posts_issued w + N) = Responds r /\
      attempt_fails (Responds r) = false /\
      send_telemetry env endpoint payload telemetry_type w =
        (Val (true, inl r), advance w (S N) new) /\
      io_events new = call_io (request_of endpoint payload) (S N)) \/
  ((forall i, (i < 3)%nat ->
              attempt_fails (network env (posts_issued w + i)) = true) /\
   exists new,
     send_telemetry env endpoint payload telemetry_type w =
       (Val (false, inr (failure_message telemetry_type)), advance w 3 new) /\
     io_events new = call_io (request_of endpoint payload) 3).
Proof.
  assert (Ok : forall N r,
             (N < 3)%nat ->
             (forall i, (i < N)%nat ->
                        attempt_fails (network env (posts_issued w + i)) = true) ->
             network env (posts_issued w + N) = Responds r ->
             attempt_fails (Responds r) = false ->
             exists new,
               send_telemetry env endpoint payload telemetry_type w =
                 (Val (true, inl r), advance w (S N) new) /\
               io_events new = call_io (request_of endpoint payload) (S N)).
  { intros N r HN Hfail Hok Hr.
    unfold send_telemetry. rewrite range_MAX_RETRIES.
    destruct (for_attempt_in_retries env (url_base ++ "/" ++ endpoint) payload
                telemetry_type N [0; 1; 2] w r)
      as (new & pre & R & _ & I); auto.
    exists new. split; [exact R |]. rewrite I.
    destruct N as [|[|[|N]]]; try reflexivity. lia. }
  assert (Ask : forall N,
             attempt_fails (network env (posts_issued w + N)) = false ->
             exists r, network env (posts_issued w + N) = Responds r /\
                       attempt_fails (Responds r) = false).
  { intros N F. destruct (network env (posts_issued w + N)) as [r | cls msg] eqn:E.
    - exists r. split; [reflexivity | exact F].
    - discriminate F. }
  destruct (attempt_fails (network env (posts_issued w + 0))) eqn:F0.
  destruct (attempt_fails (network env (posts_issued w + 1))) eqn:F1.
  destruct (attempt_fails (network env (posts_issued w + 2))) eqn:F2.
  - right.
    assert (All : forall i, (i < 3)%nat ->
                  attempt_fails (network env (posts_issued w + i)) = true).
    { intros i Hi. destruct i as [|[|[|i]]]; try assumption. lia. }
    split; [exact All |].
    unfold send_telemetry. rewrite range_MAX_RETRIES.
    destruct (for_attempt_in_exhausted env (url_base ++ "/" ++ endpoint) payload
                telemetry_type [0; 1; 2] w All) as (new & R & I).
    exists new. split; [exact R |]. rewrite I. reflexivity.
  - left. destruct (Ask 2%nat F2) as (r & E & Hr).
    destruct (Ok 2%nat r) as (new & R & I); auto.
    { intros i Hi. destruct i as [|[|i]]; try assumption. lia. }
    exists 2%nat, r, new. repeat split; auto.
    intros i Hi. destruct i as [|[|i]]; try assumption. lia.
  - left. destruct (Ask 1%nat F1) as (r & E & Hr).
    destruct (Ok 1%nat r) as (new & R & I); auto.
    { intros i Hi. destruct i as [|i]; try assumption. lia. }
    exists 1%nat, r, new. repeat split; auto.
    intros i Hi. destruct i as [|i]; try assumption. lia.
  - left. destruct (Ask 0%nat F0) as (r & E & Hr).
    destruct (Ok 0%nat r) as (new & R & I); auto.
    { intros i Hi. lia. }
    exists 0%nat, r, new. repeat split; auto.
    intros i Hi. lia.
Qed.

(** X1.  Whatever the network does, one call of [send_telemetry] makes
    [k] POSTs with [1 <= k <= 3], and its POSTs and delays alternate:
    exactly one delay of 2 seconds between consecutive POSTs, none
    before the first POST and none after the last. *)
Theorem send_telemetry_alternates_posts_and_delays
    (env : Env) (endpoint : string) (payload : json) (telemetry_type : string)
    (w : World) :
  exists res k new,
    send_telemetry env endpoint payload telemetry_type w =
      (Val res, advance w k new) /\
    (1 <= k <= 3)%nat /\
    io_events new = call_io (request_of endpoint payload) k /\
    sleeps_in new = repeat 2 (k - 1).
Proof.
  destruct (send_telemetry_cases env endpoint payload telemetry_type w)
    as [(N & r & new & HN & _ & _ & _ & R & I) | (_ & new & R & I)].
  - exists (true, inl r), (S N), new.
    split; [exact R |]. split; [lia |]. split; [exact I |].
    rewrite <- sleeps_in_io, I.
    destruct N as [|[|[|N]]]; try reflexivity. lia.
  - exists (false, inr (failure_message telemetry_type)), 3%nat, new.
    split; [exact R |]. split; [lia |]. split; [exact I |].
    rewrite <- sleeps_in_io, I. reflexivity.
Qed.

(** X2.  Whatever the network does, a call of [send_telemetry] returns
    success exactly when at least one of the (up to) three POST outcomes
    it is served is not a failure; it returns failure exactly when all
    three are. *)
Theorem send_telemetry_succeeds_iff_some_attempt_does
    (env : Env) (endpoint : string) (payload : json) (telemetry_type : string)
    (w : World) :
  exists res w',
    send_telemetry env endpoint payload telemetry_type w = (Val res, w') /\
    (fst res = true <->
     exists i, (i < 3)%nat /\
               attempt_fails (network env (posts_issued w + i)) = false) /\
    (fst res = false <->
     forall i, (i < 3)%nat ->
               attempt_fails (network env (posts_issued w + i)) = true).
Proof.
  destruct (send_telemetry_cases env endpoint payload telemetry_type w)
    as [(N & r & new & HN & Hfail & E & Hr & R & _) | (All & new & R & _)].
  - eexists _, _. split; [exact R |]. cbn [fst].
    assert (F : attempt_fails (network env (posts_issued w + N)) = false)
      by (rewrite E; exact Hr).
    split; split; intros H; try discriminate; eauto.
    specialize (H N HN). congruence.
  - eexists _, _. split; [exact R |]. cbn [fst].
    split; split; intros H; try discriminate; auto.
    destruct H as (i & Hi & F). rewrite (All i Hi) in F. discriminate.
Qed.

(** X3.  A response that [send_telemetry] returns as a success is the
    answer to the last POST of the call, every earlier POST of the call
    failed, and its status is not in the 4xx/5xx range. *)
Theorem send_telemetry_returns_first_good_response
    (env : Env) (endpoint : string) (payload : json) (telemetry_type : string)
    (w w' : World) (r : Response) :
  send_telemetry env endpoint payload telemetry_type w =
    (Val (true, inl r), w') ->
  exists N,
    (N < 3)%nat /\
    posts_issued w' = (posts_issued w + N + 1)%nat /\
    network env (posts_issued w + N) = Responds r /\
    (forall i, (i < N)%nat ->
               attempt_fails (network env (posts_issued w + i)) = true) /\
    ~ (400 <= status_code r < 600).
Proof.
  intros H.
  destruct (send_telemetry_cases env endpoint payload telemetry_type w)
    as [(N & r0 & new & HN & Hfail & E & Hr & R & _) | (_ & new & R & _)].
  - rewrite R in H. injection H as <- <-.
    exists N. repeat split; auto.
    + cbn [posts_issued advance]. lia.
    + unfold attempt_fails in Hr. apply andb_false_iff in Hr.
      intros [A B]. destruct Hr as [Hr | Hr];
        [apply Z.leb_gt in Hr | apply Z.ltb_ge in Hr]; lia.
  - rewrite R in H. discriminate H.
Qed.

Lemma send_telemetry_returns_first_good_response_witness :
  exists N,
    (N < 3)%nat /\
    posts_issued (snd (send_telemetry (sample_env flaky_network) "logs"
                         (logs_payload 7) "logs" initial_world)) =
      (posts_issued initial_world + N + 1)%nat /\
    network (sample_env flaky_network) (posts_issued initial_world + N) =
      Responds (response_with 200 "OK") /\
    (forall i, (i < N)%nat ->
               attempt_fails (network (sample_env flaky_network)
                                (posts_issued initial_world + i)) = true) /\
    ~ (400 <= status_code (response_with 200 "OK") < 600).
Proof.
  apply (send_telemetry_returns_first_good_response (sample_env flaky_network)
           "logs" (logs_payload 7) "logs" initial_world).
  reflexivity.
Defined.

(** ** What a failed attempt logs *)

(** The line each [except] clause prints, by class of the exception. *)
Lemma except_clauses_line (url telemetry_type : string) (cls : requests_class)
    (msg : string) (w : World) :
  except_clauses url telemetry_type (RequestsExc cls msg) w =
  (Val None,
   advance w 0
     [EPrint
        (match cls with
         | ConnectionError | ConnectTimeout =>
             "Connection error: The OpenTelemetry endpoint at " ++ url
             ++ " is unavailable: " ++ msg
         | Timeout =>
             "Timeout error: The request to " ++ url ++ " timed out: " ++ msg
         | HTTPError | RequestException =>
             "Request error: Failed to send " ++ telemetry_type ++ " to "
             ++ url ++ ": " ++ msg
         end)]).
Proof.
  unfold except_clauses.
  destruct cls; cbn [isinstance issubclass exn_str]; cbv zeta;
    (erewrite bind_val by apply print_run); cbv beta;
    unfold ret; cbn [String.concat];
    rewrite !string_app_assoc; reflexivity.
Qed.

(** X4.  An exception raised by [requests.post] is logged by the first
    [except] clause that names one of its classes, and the attempt falls
    through to the retry logic: a [ConnectionError], and a
    [ConnectTimeout] (which is also a [Timeout]), as "Connection error";
    any other [Timeout] as "Timeout error"; every other exception of the
    family as "Request error".  The line ends with [str(e)]. *)
Theorem request_exception_is_logged_by_category
    (env : Env) (url : string) (payload : json) (telemetry_type : string)
    (attempt : Z) (w : World) (cls : requests_class) (msg : string) :
  network env (posts_issued w) = Fails cls msg ->
  try_post env url payload telemetry_type attempt w =
  (Val None,
   advance w 1
     [sending_line telemetry_type attempt;
      EPost (mkRequest url headers payload);
      EPrint
        (match cls with
         | ConnectionError | ConnectTimeout =>
             "Connection error: The OpenTelemetry endpoint at " ++ url
             ++ " is unavailable: " ++ msg
         | Timeout =>
             "Timeout error: The request to " ++ url ++ " timed out: " ++ msg
         | HTTPError | RequestException =>
             "Request error: Failed to send " ++ telemetry_type ++ " to "
             ++ url ++ ": " ++ msg
         end)]).
Proof.
  intros N. unfold try_post.
  erewrite try_except_raise by (rewrite try_suite_posts, N; reflexivity).
  rewrite except_clauses_line, advance_advance. reflexivity.
Qed.

Lemma request_exception_is_logged_by_category_witness :
  try_post (sample_env slow_network) "http://localhost:4318/v1/logs"
    (logs_payload 7) "logs" 0 initial_world =
  (Val None,
   advance initial_world 1
     [sending_line "logs" 0;
      EPost (mkRequest "http://localhost:4318/v1/logs" headers (logs_payload 7));
      EPrint
        ("Connection error: The OpenTelemetry endpoint at "
         ++ "http://localhost:4318/v1/logs" ++ " is unavailable: "
         ++ "connect timed out")]).
Proof.
  apply (request_exception_is_logged_by_category (sample_env slow_network)
           "http://localhost:4318/v1/logs" (logs_payload 7) "logs" 0
           initial_world ConnectTimeout "connect timed out").
  reflexivity.
Defined.

(** The [HTTPError] of [raise_for_status], with its text. *)
Lemma raise_for_status_http_error (r : Response) (w : World) :
  400 <= status_code r < 600 ->
  raise_for_status r w =
  (Raise (RequestsExc HTTPError
            (str (status_code r)
             ++ (if status_code r <? 500 then " Client Error: "
                 else " Server Error: ")
             ++ reason r ++ " for url: " ++ resp_url r)), w).
Proof.
  intros S. unfold raise_for_status, raise.
  destruct (status_code r <? 500) eqn:C.
  - apply Z.ltb_lt in C.
    replace (400 <=? status_code r) with true by (symmetry; apply Z.leb_le; lia).
    reflexivity.
  - apply Z.ltb_ge in C.
    replace (500 <=? status_code r) with true by (symmetry; apply Z.leb_le; lia).
    replace (status_code r <? 600) with true by (symmetry; apply Z.ltb_lt; lia).
    rewrite andb_false_r. reflexivity.
Qed.

(** X5.  A response with a 4xx or 5xx status is logged by the third
    clause, and the attempt falls through to the retry logic.  The line
    is "Request error: Failed to send <type> to <url>: " followed by the
    text of the [HTTPError]: the status, " Client Error: " for a 4xx and
    " Server Error: " for a 5xx status, the reason phrase, " for url: "
    and the URL of the response. *)
Theorem http_error_status_is_logged_as_request_error
    (env : Env) (url : string) (payload : json) (telemetry_type : string)
    (attempt : Z) (w : World) (r : Response) :
  network env (posts_issued w) = Responds r ->
  400 <= status_code r < 600 ->
  try_post env url payload telemetry_type attempt w =
  (Val None,
   advance w 1
     [sending_line telemetry_type attempt;
      EPost (mkRequest url headers payload);
      EPrint ("Request error: Failed to send " ++ telemetry_type ++ " to "
              ++ url ++ ": " ++ str (status_code r)
              ++ (if status_code r <? 500 then " Client Error: "
                  else " Server Error: ")
              ++ reason r ++ " for url: " ++ resp_url r)]).
Proof.
  intros N S. unfold try_post.
  erewrite try_except_raise
    by (rewrite try_suite_posts, N;
        erewrite bind_raise by (apply raise_for_status_http_error; exact S);
        reflexivity).
  rewrite except_clauses_line, advance_advance. reflexivity.
Qed.

Lemma http_error_status_is_logged_as_request_error_witness :
  try_post (sample_env unavailable_network) "http://localhost:4318/v1/logs"
    (logs_payload 7) "logs" 2 initial_world =
  (Val None,
   advance initial_world 1
     [sending_line "logs" 2;
      EPost (mkRequest "http://localhost:4318/v1/logs" headers (logs_payload 7));
      EPrint ("Request error: Failed to send logs to "
              ++ "http://localhost:4318/v1/logs: "
              ++ "503 Server Error: Service Unavailable for url: "
              ++ "http://localhost:4318/v1/logs")]).
Proof.
  apply (http_error_status_is_logged_as_request_error
           (sample_env unavailable_network) "http://localhost:4318/v1/logs"
           (logs_payload 7) "logs" 2 initial_world
           (response_with 503 "Service Unavailable")).
  - reflexivity.
  - simpl. lia.
Defined.

(** ** More about the whole run *)

Lemma report_lines_run (label : string) (success_count : Z) (res : SendResult)
    (w : World) :
  (exists r, res = (true, inl r)) \/ (exists message, res = (false, inr message)) ->
  report label success_count res w =
  (Val (fst res, success_count + Z.b2z (fst res)),
   advance w 0 (report_lines label res)).
Proof.
  intros [[r ->] | [message ->]]; unfold report, attributes_of, report_lines.
  - erewrite bind_val by reflexivity. cbv beta.
    erewrite bind_val by apply print_run. cbv beta.
    erewrite bind_val by apply print_run. cbv beta.
    unfold ret. cbn [String.concat].
    rewrite advance_advance, !string_app_assoc. reflexivity.
  - erewrite bind_val by apply print_run. cbv beta.
    unfold ret. cbn [String.concat fst Z.b2z].
    rewrite Z.add_0_r. reflexivity.
Qed.

Lemma io_events_report_lines (label : string) (res : SendResult) :
  io_events (report_lines label res) = [].
Proof.
  destruct res as [[|] [r | message]]; reflexivity.
Qed.

Lemma sleeps_in_call_io (req : Request) (k : nat) :
  sleeps_in (call_io req k) = repeat 2 (k - 1).
Proof.
  unfold call_io. induction (k - 1)%nat as [|n IH]; [reflexivity |].
  cbn [repeat List.concat app sleeps_in]. rewrite IH. reflexivity.
Qed.

Lemma posts_in_call_io (req : Request) (k : nat) :
  (1 <= k)%nat -> posts_in (call_io req k) = repeat req k.
Proof.
  intros Hk. unfold call_io.
  replace k with (S (k - 1)) at 2 by lia.
  induction (k - 1)%nat as [|n IH]; [reflexivity |].
  cbn [repeat List.concat app posts_in]. rewrite IH. reflexivity.
Qed.

(** A call followed by its report, in full. *)
Lemma send_and_report_detail (env : Env) (endpoint : string) (payload : json)
    (ty label : string) (success_count : Z) (w : World) :
  exists res k new,
    send_telemetry env endpoint payload ty w = (Val res, advance w k new) /\
    bind (send_telemetry env endpoint payload ty) (report label success_count) w =
      (Val (fst res, success_count + Z.b2z (fst res)),
       advance w k (new ++ report_lines label res)) /\
    (1 <= k <= 3)%nat /\
    io_events new = call_io (request_of endpoint payload) k /\
    ((exists r, res = (true, inl r)) \/
     res = (false, inr (failure_message ty))).
Proof.
  assert (Step : forall res k new,
             send_telemetry env endpoint payload ty w = (Val res, advance w k new) ->
             (exists r, res = (true, inl r)) \/
             (exists message, res = (false, inr message)) ->
             bind (send_telemetry env endpoint payload ty)
               (report label success_count) w =
             (Val (fst res, success_count + Z.b2z (fst res)),
              advance w k (new ++ report_lines label res))).
  { intros res k new R S. erewrite bind_val by exact R.
    rewrite report_lines_run, advance_advance, Nat.add_0_r by exact S.
    reflexivity. }
  destruct (send_telemetry_cases env endpoint payload ty w)
    as [(N & r & new & HN & _ & _ & _ & R & I) | (_ & new & R & I)].
  - exists (true, inl r), (S N), new.
    split; [exact R |]. split; [apply Step; eauto |].
    split; [lia |]. split; [exact I | eauto].
  - exists (false, inr (failure_message ty)), 3%nat, new.
    split; [exact R |]. split; [apply Step; eauto |].
    split; [lia |]. split; [exact I | auto].
Qed.

(** The tail of the script, with the closing message spelled out. *)
Lemma closing_detail (g : Globals) (s1 s2 s3 : bool) (w : World) :
  (print_ids g ;;
   print [summary_line (0 + Z.b2z s1 + Z.b2z s2 + Z.b2z s3)] ;;
   exit_with_status (0 + Z.b2z s1 + Z.b2z s2 + Z.b2z s3)) w =
  (Raise (SystemExit (if s1 && s2 && s3 then 0 else 1)),
   advance w 0
     (closing_lines g (Z.b2z s1 + Z.b2z s2 + Z.b2z s3)
        (closing_message (Z.b2z s1 + Z.b2z s2 + Z.b2z s3)))).
Proof.
  erewrite bind_val by apply print_ids_run. cbv beta.
  erewrite bind_val by apply print_run. cbv beta.
  rewrite advance_advance.
  destruct s1, s2, s3; cbn [Z.b2z andb]; unfold exit_with_status;
    match goal with
    | |- context [if ?c then _ else _] =>
        let v := eval vm_compute in c in change c with v
    end; cbv iota;
    try match goal with
    | |- context [if ?c then _ else _] =>
        let v := eval vm_compute in c in change c with v
    end; cbv iota;
    (erewrite bind_val by apply print_run); cbv beta;
    unfold sys_exit, raise; rewrite advance_advance; reflexivity.
Qed.

(** Every run, laid out in full. *)
Lemma main_run_detail (env : Env) :
  exists g w0,
    build_payloads env initial_world = (Val g, w0) /\
    exists res1 k1 new1 res2 k2 new2 res3 k3 new3,
      let w1 := advance w0 k1 (new1 ++ report_lines "Logs" res1) in
      let w2 := advance w1 k2 (new2 ++ report_lines "Metrics" res2) in
      let w3 := advance w2 k3 (new3 ++ report_lines "Traces" res3) in
      let count := Z.b2z (fst res1) + Z.b2z (fst res2) + Z.b2z (fst res3) in
      (send_telemetry env "logs" (logs_payload (current_time_ns g)) "logs" w0 =
         (Val res1, advance w0 k1 new1) /\
       send_logs env g 0 w0 = (Val (fst res1, 0 + Z.b2z (fst res1)), w1) /\
       (1 <= k1 <= 3)%nat /\
       io_events new1 = call_io (logs_request g) k1 /\
       ((exists r, res1 = (true, inl r)) \/
        res1 = (false, inr (failure_message "logs")))) /\
      (send_telemetry env "metrics"
         (metrics_payload (current_time_ns g) (randint_0_100 g)) "metrics" w1 =
         (Val res2, advance w1 k2 new2) /\
       send_metrics env g (0 + Z.b2z (fst res1)) w1 =
         (Val (fst res2, 0 + Z.b2z (fst res1) + Z.b2z (fst res2)), w2) /\
       (1 <= k2 <= 3)%nat /\
       io_events new2 = call_io (metrics_request g) k2 /\
       ((exists r, res2 = (true, inl r)) \/
        res2 = (false, inr (failure_message "metrics")))) /\
      (send_telemetry env "traces"
         (trace_payload (current_time_ns g) (trace_id_hex g)
            (parent_span_id_hex g) (child_span_id_hex g)) "traces" w2 =
         (Val res3, advance w2 k3 new3) /\
       send_traces env g (0 + Z.b2z (fst res1) + Z.b2z (fst res2)) w2 =
         (Val (fst res3, 0 + Z.b2z (fst res1) + Z.b2z (fst res2)
                         + Z.b2z (fst res3)), w3) /\
       (1 <= k3 <= 3)%nat /\
       io_events new3 = call_io (traces_request g) k3 /\
       ((exists r, res3 = (true, inl r)) \/
        res3 = (false, inr (failure_message "traces")))) /\
      run env =
        (Raise (SystemExit (if fst res1 && fst res2 && fst res3 then 0 else 1)),
         advance w3 0 (closing_lines g count (closing_message count))).
Proof.
  pose proof (build_payloads_run env initial_world) as B.
  match type of B with
  | _ = (Val ?g0, ?w) => set (g := g0) in *; set (w0 := w) in *
  end.
  exists g, w0. split; [exact B |].
  destruct (send_and_report_detail env "logs" (logs_payload (current_time_ns g))
              "logs" "Logs" 0 w0)
    as (res1 & k1 & new1 & T1 & E1 & K1 & I1 & S1).
  destruct (send_and_report_detail env "metrics"
              (metrics_payload (current_time_ns g) (randint_0_100 g))
              "metrics" "Metrics" (0 + Z.b2z (fst res1))
              (advance w0 k1 (new1 ++ report_lines "Logs" res1)))
    as (res2 & k2 & new2 & T2 & E2 & K2 & I2 & S2).
  destruct (send_and_report_detail env "traces"
              (trace_payload (current_time_ns g) (trace_id_hex g)
                 (parent_span_id_hex g) (child_span_id_hex g))
              "traces" "Traces" (0 + Z.b2z (fst res1) + Z.b2z (fst res2))
              (advance (advance w0 k1 (new1 ++ report_lines "Logs" res1)) k2
                 (new2 ++ report_lines "Metrics" res2)))
    as (res3 & k3 & new3 & T3 & E3 & K3 & I3 & S3).
  exists res1, k1, new1, res2, k2, new2, res3, k3, new3.
  cbv zeta. rewrite send_logs_eq, send_metrics_eq, send_traces_eq.
  repeat split; try assumption; try lia.
  unfold run, main.
  erewrite bind_val by exact B. cbv beta zeta.
  rewrite send_logs_eq. erewrite bind_val by exact E1. cbv beta iota.
  rewrite send_metrics_eq. erewrite bind_val by exact E2. cbv beta iota.
  rewrite send_traces_eq. erewrite bind_val by exact E3. cbv beta iota.
  apply closing_detail.
Qed.

(** X6.  Each reporting block counts a success and prints what its call
    returned: after a success, the status code and the body of the
    response, and [success_count] goes up by one; after a failure, the
    one line "<Label> Error: Failed to send <type> after 3 attempts",
    and [success_count] stays as it was. *)
Theorem reporting_blocks_print_the_result
    (env : Env) (g : Globals) (success_count : Z) (w : World) :
  (exists res k new lines,
      send_telemetry env "logs" (logs_payload (current_time_ns g)) "logs" w =
        (Val res, advance w k new) /\
      send_logs env g success_count w =
        (Val (fst res, success_count + Z.b2z (fst res)),
         advance w k (new ++ lines)) /\
      ((exists r, res = (true, inl r) /\
                  lines = [EPrint ("Logs Status code: " ++ str (status_code r));
                           EPrint ("Logs Response body: " ++ text r)]) \/
       (res = (false, inr "Failed to send logs after 3 attempts") /\
        lines = [EPrint "Logs Error: Failed to send logs after 3 attempts"]))) /\
  (exists res k new lines,
      send_telemetry env "metrics"
        (metrics_payload (current_time_ns g) (randint_0_100 g)) "metrics" w =
        (Val res, advance w k new) /\
      send_metrics env g success_count w =
        (Val (fst res, success_count + Z.b2z (fst res)),
         advance w k (new ++ lines)) /\
      ((exists r, res = (true, inl r) /\
                  lines = [EPrint ("Metrics Status code: " ++ str (status_code r));
                           EPrint ("Metrics Response body: " ++ text r)]) \/
       (res = (false, inr "Failed to send metrics after 3 attempts") /\
        lines = [EPrint "Metrics Error: Failed to send metrics after 3 attempts"]))) /\
  (exists res k new lines,
      send_telemetry env "traces"
        (trace_payload (current_time_ns g) (trace_id_hex g)
           (parent_span_id_hex g) (child_span_id_hex g)) "traces" w =
        (Val res, advance w k new) /\
      send_traces env g success_count w =
        (Val (fst res, success_count + Z.b2z (fst res)),
         advance w k (new ++ lines)) /\
      ((exists r, res = (true, inl r) /\
                  lines = [EPrint ("Traces Status code: " ++ str (status_code r));
                           EPrint ("Traces Response body: " ++ text r)]) \/
       (res = (false, inr "Failed to send traces after 3 attempts") /\
        lines = [EPrint "Traces Error: Failed to send traces after 3 attempts"]))).
Proof.
  rewrite send_logs_eq, send_metrics_eq, send_traces_eq.
  split; [| split].
  - destruct (send_and_report_detail env "logs" (logs_payload (current_time_ns g))
                "logs" "Logs" success_count w)
      as (res & k & new & T & E & _ & _ & S).
    exists res, k, new, (report_lines "Logs" res).
    split; [exact T |]. split; [exact E |].
    destruct S as [[r ->] | ->]; [left; exists r | right]; split; reflexivity.
  - destruct (send_and_report_detail env "metrics"
                (metrics_payload (current_time_ns g) (randint_0_100 g))
                "metrics" "Metrics" success_count w)
      as (res & k & new & T & E & _ & _ & S).
    exists res, k, new, (report_lines "Metrics" res).
    split; [exact T |]. split; [exact E |].
    destruct S as [[r ->] | ->]; [left; exists r | right]; split; reflexivity.
  - destruct (send_and_report_detail env "traces"
                (trace_payload (current_time_ns g) (trace_id_hex g)
                   (parent_span_id_hex g) (child_span_id_hex g))
                "traces" "Traces" success_count w)
      as (res & k & new & T & E & _ & _ & S).
    exists res, k, new, (report_lines "Traces" res).
    split; [exact T |]. split; [exact E |].
    destruct S as [[r ->] | ->]; [left; exists r | right]; split; reflexivity.
Qed.

(** X7.  In every run the POSTs and delays are, in this order: the
    [k1] POSTs of the logs call, the [k2] POSTs of the metrics call and
    the [k3] POSTs of the traces call, each [1 <= k <= 3], each call
    with one 2-second delay between its consecutive POSTs and none
    between calls.  So a run makes between 3 and 9 POSTs, sends nothing
    but the three requests, and sleeps 2 seconds exactly (POSTs - 3)
    times. *)
Theorem run_posts_and_delays (env : Env) :
  exists g w0 k1 k2 k3,
    build_payloads env initial_world = (Val g, w0) /\
    (1 <= k1 <= 3)%nat /\ (1 <= k2 <= 3)%nat /\ (1 <= k3 <= 3)%nat /\
    posts_issued (snd (run env)) = (k1 + k2 + k3)%nat /\
    io_events (trace (snd (run env))) =
      (call_io (logs_request g) k1 ++ call_io (metrics_request g) k2
       ++ call_io (traces_request g) k3)%list /\
    posts_in (trace (snd (run env))) =
      (repeat (logs_request g) k1 ++ repeat (metrics_request g) k2
       ++ repeat (traces_request g) k3)%list /\
    sleeps_in (trace (snd (run env))) = repeat 2 (k1 + k2 + k3 - 3).
Proof.
  destruct (main_run_detail env)
    as (g & w0 & B & res1 & k1 & new1 & res2 & k2 & new2 & res3 & k3 & new3
        & (_ & _ & K1 & I1 & _) & (_ & _ & K2 & I2 & _)
        & (_ & _ & K3 & I3 & _) & R).
  exists g, w0, k1, k2, k3.
  split; [exact B |]. do 3 (split; [assumption |]).
  rewrite R. rewrite build_payloads_run in B. injection B as _ <-.
  cbn [snd posts_issued trace advance initial_world app].
  assert (IO : io_events
                 ((((new1 ++ report_lines "Logs" res1)
                    ++ new2 ++ report_lines "Metrics" res2)
                   ++ new3 ++ report_lines "Traces" res3)
                  ++ closing_lines g
                       (Z.b2z (fst res1) + Z.b2z (fst res2) + Z.b2z (fst res3))
                       (closing_message
                          (Z.b2z (fst res1) + Z.b2z (fst res2)
                           + Z.b2z (fst res3))))
               = (call_io (logs_request g) k1 ++ call_io (metrics_request g) k2
                  ++ call_io (traces_request g) k3)%list).
  { rewrite !io_events_app, !io_events_report_lines, I1, I2, I3.
    cbn [closing_lines io_events]. rewrite !app_nil_r, <- app_assoc.
    reflexivity. }
  split; [lia |]. split; [exact IO |]. split.
  - rewrite <- posts_in_io, IO, !posts_in_app, !posts_in_call_io by lia.
    reflexivity.
  - rewrite <- sleeps_in_io, IO, !sleeps_in_app, !sleeps_in_call_io.
    rewrite <- !repeat_app. f_equal. lia.
Qed.

(** X8.  In every run, with [s1], [s2], [s3] the success flags the three
    calls return: the summary line shows the number of flags that are
    [True], out of 3, and the last line printed is the "All ... failed"
    message exactly when none is, the "All ... completed successfully"
    message exactly when all are, and the "Some ... failed" message
    otherwise. *)
Theorem summary_counts_the_successful_sends (env : Env) :
  exists g w0 s1 r1 u1 c1 w1 s2 r2 u2 c2 w2 s3 r3 u3 c3 w3 before closing,
    build_payloads env initial_world = (Val g, w0) /\
    send_telemetry env "logs" (logs_payload (current_time_ns g)) "logs" w0 =
      (Val (s1, r1), u1) /\
    send_logs env g 0 w0 = (Val (s1, c1), w1) /\
    send_telemetry env "metrics"
      (metrics_payload (current_time_ns g) (randint_0_100 g)) "metrics" w1 =
      (Val (s2, r2), u2) /\
    send_metrics env g c1 w1 = (Val (s2, c2), w2) /\
    send_telemetry env "traces"
      (trace_payload (current_time_ns g) (trace_id_hex g)
         (parent_span_id_hex g) (child_span_id_hex g)) "traces" w2 =
      (Val (s3, r3), u3) /\
    send_traces env g c2 w2 = (Val (s3, c3), w3) /\
    c3 = Z.b2z s1 + Z.b2z s2 + Z.b2z s3 /\
    trace (snd (run env)) = (before ++ closing_lines g c3 closing)%list /\
    (closing =
       "All telemetry operations failed. Check if the OpenTelemetry endpoint is available."
     <-> s1 = false /\ s2 = false /\ s3 = false) /\
    (closing = "All telemetry operations completed successfully."
     <-> s1 = true /\ s2 = true /\ s3 = true) /\
    (closing = "Some telemetry operations failed. Check the logs for details."
     <-> (s1 = true \/ s2 = true \/ s3 = true) /\
         (s1 = false \/ s2 = false \/ s3 = false)).
Proof.
  destruct (main_run_detail env)
    as (g & w0 & B & [s1 r1] & k1 & new1 & [s2 r2] & k2 & new2 & [s3 r3] & k3
        & new3 & (T1 & E1 & _) & (T2 & E2 & _) & (T3 & E3 & _) & R).
  cbn [fst] in *.
  exists g, w0.
  eexists s1, r1, _, _, _, s2, r2, _, _, _.
  eexists s3, r3, _, _, _, _, _.
  repeat (split; [eassumption |]).
  split; [apply Z.add_0_l |].
  rewrite R. cbn [snd trace advance]. rewrite Z.add_0_l.
  split; [reflexivity |].
  destruct s1, s2, s3; cbn [Z.b2z Z.add]; vm_compute closing_message;
    repeat match goal with
           | |- _ /\ _ => split
           | |- _ <-> _ => split
           end;
    intros Hc; try discriminate Hc; try tauto;
    try (decompose [and or] Hc; discriminate).
Qed.

(** X9.  A run draws once from the random generator and reads exactly
    32 bytes of entropy, all while the payloads are built: bytes 0-15
    become the trace id, bytes 16-23 the parent span id and bytes 24-31
    the child span id.  Sending and reporting consume neither. *)
Theorem run_entropy_usage (env : Env) :
  exists g w0,
    build_payloads env initial_world = (Val g, w0) /\
    trace_id_hex g = hex (map (entropy env) (seq 0 16)) /\
    parent_span_id_hex g = hex (map (entropy env) (seq 16 8)) /\
    child_span_id_hex g = hex (map (entropy env) (seq 24 8)) /\
    randint_0_100 g = prng env 0 mod 101 /\
    entropy_read w0 = 32%nat /\
    entropy_read (snd (run env)) = 32%nat /\
    prng_draws (snd (run env)) = 1%nat /\
    posts_issued w0 = 0%nat /\ trace w0 = [].
Proof.
  destruct (main_run env)
    as (g & w0 & B & s1 & r1 & k1 & new1 & lines1 & s2 & r2 & k2 & new2 & lines2
        & s3 & r3 & k3 & new3 & lines3 & closing & _ & _ & _ & R).
  exists g, w0. split; [exact B |].
  rewrite R. rewrite build_payloads_run in B. injection B as <- <-.
  repeat split; reflexivity.
Qed.

(** ** The complete trace of one call *)

(** X10.  Whatever the network does, the complete trace of one call of
    [send_telemetry] has one of four shapes.  Each attempt prints
    "Sending <type> (attempt i/3)..." with i = 1, 2, 3 in turn and then
    POSTs; a failed attempt prints one error line; after a failed first
    or second attempt comes "Retrying in 2 seconds..." and a 2-second
    sleep; nothing follows a successful POST, and nothing but the error
    line follows the third failed POST. *)
Theorem send_telemetry_trace_shapes
    (env : Env) (endpoint : string) (payload : json) (telemetry_type : string)
    (w : World) :
  let req := request_of endpoint payload in
  let sending i :=
    EPrint ("Sending " ++ telemetry_type ++ " (attempt " ++ i ++ "/3)...") in
  let retrying := EPrint "Retrying in 2 seconds..." in
  (exists r,
      send_telemetry env endpoint payload telemetry_type w =
      (Val (true, inl r), advance w 1 [sending "1"; EPost req])) \/
  (exists r e1,
      send_telemetry env endpoint payload telemetry_type w =
      (Val (true, inl r),
       advance w 2 [sending "1"; EPost req; EPrint e1; retrying; ESleep 2;
                    sending "2"; EPost req])) \/
  (exists r e1 e2,
      send_telemetry env endpoint payload telemetry_type w =
      (Val (true, inl r),
       advance w 3 [sending "1"; EPost req; EPrint e1; retrying; ESleep 2;
                    sending "2"; EPost req; EPrint e2; retrying; ESleep 2;
                    sending "3"; EPost req])) \/
  (exists e1 e2 e3,
      send_telemetry env endpoint payload telemetry_type w =
      (Val (false, inr ("Failed to send " ++ telemetry_type ++ " after 3 attempts")),
       advance w 3 [sending "1"; EPost req; EPrint e1; retrying; ESleep 2;
                    sending "2"; EPost req; EPrint e2; retrying; ESleep 2;
                    sending "3"; EPost req; EPrint e3])).
Proof.
  cbv zeta. unfold send_telemetry. rewrite range_MAX_RETRIES.
  set (url := (url_base ++ "/" ++ endpoint)%string).
  assert (Good : forall a rest w0,
             attempt_fails (network env (posts_issued w0)) = false ->
             exists r,
               for_attempt_in env (a :: rest) url payload telemetry_type w0 =
               (Val (true, inl r),
                advance w0 1 [sending_line telemetry_type a;
                              EPost (mkRequest url headers payload)])).
  { intros a rest w0 F.
    destruct (network env (posts_issued w0)) as [r | cls msg] eqn:E;
      [| discriminate F].
    exists r. apply for_attempt_in_cons_succeeds; assumption. }
  destruct (attempt_fails (network env (posts_issued w))) eqn:F0.
  - destruct (for_attempt_in_cons_fails env url payload telemetry_type
                0 [1; 2] w F0) as [e1 E1].
    rewrite E1.
    match goal with |- context [for_attempt_in _ _ _ _ _ ?w0] => set (w1 := w0) end.
    destruct (attempt_fails (network env (posts_issued w1))) eqn:F1.
    + destruct (for_attempt_in_cons_fails env url payload telemetry_type
                  1 [2] w1 F1) as [e2 E2].
      rewrite E2.
      match goal with |- context [for_attempt_in _ _ _ _ _ ?w0] => set (w2 := w0) end.
      destruct (attempt_fails (network env (posts_issued w2))) eqn:F2.
      * destruct (for_attempt_in_cons_fails env url payload telemetry_type
                    2 [] w2 F2) as [e3 E3].
        rewrite E3. right; right; right. exists e1, e2, e3.
        cbn [for_attempt_in]. unfold ret, w2, w1.
        rewrite !advance_advance. reflexivity.
      * destruct (Good 2 [] w2 F2) as [r R].
        rewrite R. right; right; left. exists r, e1, e2.
        unfold w2, w1. rewrite !advance_advance. reflexivity.
    + destruct (Good 1 [2] w1 F1) as [r R].
      rewrite R. right; left. exists r, e1.
      unfold w1. rewrite !advance_advance. reflexivity.
  - destruct (Good 0 [1; 2] w F0) as [r R].
    rewrite R. left. exists r. reflexivity.
Qed.

(** ** Best and worst case *)

Lemma advance_inj (w : World) (k k' : nat) (new new' : list event) :
  advance w k new = advance w k' new' -> k = k' /\ new = new'.
Proof.
  intros H. split.
  - apply (f_equal posts_issued) in H. cbn [posts_issued advance] in H. lia.
  - apply (f_equal trace) in H. cbn [trace advance] in H.
    exact (app_inv_head _ _ _ H).
Qed.

Lemma send_telemetry_first_attempt_good
    (env : Env) (endpoint : string) (payload : json) (ty : string)
    (w : World) (res : SendResult) (k : nat) (new : list event) :
  attempt_fails (network env (posts_issued w)) = false ->
  send_telemetry env endpoint payload ty w = (Val res, advance w k new) ->
  fst res = true /\ k = 1%nat.
Proof.
  intros F T.
  destruct (send_telemetry_cases env endpoint payload ty w)
    as [(N & r & new' & HN & Hfail & _ & _ & R & _) | (All & _)].
  - destruct N as [|N].
    + rewrite R in T.
      pose proof (f_equal fst T) as Hres. pose proof (f_equal snd T) as Hw.
      cbn [fst snd] in Hres, Hw. injection Hres as <-.
      apply advance_inj in Hw as [<- _]. split; reflexivity.
    + specialize (Hfail 0%nat). rewrite Nat.add_0_r in Hfail.
      rewrite Hfail in F by lia. discriminate F.
  - specialize (All 0%nat). rewrite Nat.add_0_r in All.
    rewrite All in F by lia. discriminate F.
Qed.

Lemma send_telemetry_all_attempts_bad
    (env : Env) (endpoint : string) (payload : json) (ty : string)
    (w : World) (res : SendResult) (k : nat) (new : list event) :
  (forall i, (i < 3)%nat ->
             attempt_fails (network env (posts_issued w + i)) = true) ->
  send_telemetry env endpoint payload ty w = (Val res, advance w k new) ->
  fst res = false /\ k = 3%nat.
Proof.
  intros All T.
  destruct (send_telemetry_cases env endpoint payload ty w)
    as [(N & r & new' & HN & _ & E & Hr & _) | (_ & new' & R & _)].
  - rewrite <- E, (All N HN) in Hr. discriminate Hr.
  - rewrite R in T.
    pose proof (f_equal fst T) as Hres. pose proof (f_equal snd T) as Hw.
    cbn [fst snd] in Hres, Hw. injection Hres as <-.
    apply advance_inj in Hw as [<- _]. split; reflexivity.
Qed.

Lemma run_trace_io (g : Globals) (count : Z) (closing : string)
    (new1 new2 new3 : list event) (res1 res2 res3 : SendResult) :
  io_events
    ((((new1 ++ report_lines "Logs" res1)
       ++ new2 ++ report_lines "Metrics" res2)
      ++ new3 ++ report_lines "Traces" res3)
     ++ closing_lines g count closing)
  = (io_events new1 ++ io_events new2 ++ io_events new3)%list.
Proof.
  rewrite !io_events_app, !io_events_report_lines.
  cbn [closing_lines io_events]. rewrite !app_nil_r, <- app_assoc.
  reflexivity.
Qed.

(** X11.  When the first three POSTs of the process are not failures
    (the collector is up), the run makes exactly three POSTs, one each
    to logs, metrics and traces in this order, never sleeps, and exits
    with status 0. *)
Theorem run_against_a_healthy_collector (env : Env) :
  (forall k, (k < 3)%nat -> attempt_fails (network env k) = false) ->
  exists g w0,
    build_payloads env initial_world = (Val g, w0) /\
    exit_status (fst (run env)) = 0 /\
    posts_issued (snd (run env)) = 3%nat /\
    io_events (trace (snd (run env))) =
      [EPost (logs_request g); EPost (metrics_request g);
       EPost (traces_request g)].
Proof.
  intros Up.
  destruct (main_run_detail env)
    as (g & w0 & B & res1 & k1 & new1 & res2 & k2 & new2 & res3 & k3 & new3
        & (T1 & _ & _ & I1 & _) & (T2 & _ & _ & I2 & _)
        & (T3 & _ & _ & I3 & _) & R).
  exists g, w0. split; [exact B |].
  rewrite build_payloads_run in B. injection B as _ <-.
  apply send_telemetry_first_attempt_good in T1 as [S1 ->];
    [| apply (Up 0%nat); lia].
  apply send_telemetry_first_attempt_good in T2 as [S2 ->];
    [| apply (Up 1%nat); lia].
  apply send_telemetry_first_attempt_good in T3 as [S3 ->];
    [| apply (Up 2%nat); lia].
  rewrite R, S1, S2, S3.
  cbn [fst snd exit_status andb posts_issued trace advance initial_world app].
  split; [reflexivity |]. split; [reflexivity |].
  rewrite run_trace_io, I1, I2, I3. reflexivity.
Qed.

Lemma run_against_a_healthy_collector_witness :
  exists g w0,
    build_payloads (sample_env healthy_network) initial_world = (Val g, w0) /\
    exit_status (fst (run (sample_env healthy_network))) = 0 /\
    posts_issued (snd (run (sample_env healthy_network))) = 3%nat /\
    io_events (trace (snd (run (sample_env healthy_network)))) =
      [EPost (logs_request g); EPost (metrics_request g);
       EPost (traces_request g)].
Proof.
  apply (run_against_a_healthy_collector (sample_env healthy_network)).
  intros k _. reflexivity.
Defined.

(** X12.  When the first nine POSTs of the process all fail (the
    collector is down), the run makes exactly nine POSTs, three to each
    endpoint, sleeps six times for 2 seconds, prints "0/3" in the
    summary and the "All telemetry operations failed" message last, and
    exits with status 1. *)
Theorem run_against_a_dead_collector (env : Env) :
  (forall k, (k < 9)%nat -> attempt_fails (network env k) = true) ->
  exists g w0 before,
    build_payloads env initial_world = (Val g, w0) /\
    exit_status (fst (run env)) = 1 /\
    posts_issued (snd (run env)) = 9%nat /\
    io_events (trace (snd (run env))) =
      (call_io (logs_request g) 3 ++ call_io (metrics_request g) 3
       ++ call_io (traces_request g) 3)%list /\
    sleeps_in (trace (snd (run env))) = [2; 2; 2; 2; 2; 2] /\
    trace (snd (run env)) =
      (before ++
       closing_lines g 0
         "All telemetry operations failed. Check if the OpenTelemetry endpoint is available.")%list.
Proof.
  intros Down.
  destruct (main_run_detail env)
    as (g & w0 & B & res1 & k1 & new1 & res2 & k2 & new2 & res3 & k3 & new3
        & (T1 & _ & _ & I1 & _) & (T2 & _ & _ & I2 & _)
        & (T3 & _ & _ & I3 & _) & R).
  exists g, w0. eexists. split; [exact B |].
  rewrite build_payloads_run in B. injection B as _ <-.
  apply send_telemetry_all_attempts_bad in T1 as [S1 ->];
    [| intros i Hi; apply Down; cbn [posts_issued initial_world]; lia].
  apply send_telemetry_all_attempts_bad in T2 as [S2 ->];
    [| intros i Hi; apply Down; cbn [posts_issued advance initial_world]; lia].
  apply send_telemetry_all_attempts_bad in T3 as [S3 ->];
    [| intros i Hi; apply Down; cbn [posts_issued advance initial_world]; lia].
  rewrite R, S1, S2, S3.
  cbn [fst snd exit_status andb posts_issued trace advance initial_world app
       Z.b2z Z.add].
  assert (IO : io_events
                 ((((new1 ++ report_lines "Logs" res1)
                    ++ new2 ++ report_lines "Metrics" res2)
                   ++ new3 ++ report_lines "Traces" res3)
                  ++ closing_lines g 0 (closing_message 0))
               = (call_io (logs_request g) 3 ++ call_io (metrics_request g) 3
                  ++ call_io (traces_request g) 3)%list).
  { rewrite run_trace_io, I1, I2, I3. reflexivity. }
  split; [reflexivity |]. split; [reflexivity |]. split; [exact IO |].
  split; [rewrite <- sleeps_in_io, IO; reflexivity |].
  reflexivity.
Qed.

Lemma run_against_a_dead_collector_witness :
  exists g w0 before,
    build_payloads (sample_env unavailable_network) initial_world = (Val g, w0) /\
    exit_status (fst (run (sample_env unavailable_network))) = 1 /\
    posts_issued (snd (run (sample_env unavailable_network))) = 9%nat /\
    io_events (trace (snd (run (sample_env unavailable_network)))) =
      (call_io (logs_request g) 3 ++ call_io (metrics_request g) 3
       ++ call_io (traces_request g) 3)%list /\
    sleeps_in (trace (snd (run (sample_env unavailable_network)))) =
      [2; 2; 2; 2; 2; 2] /\
    trace (snd (run (sample_env unavailable_network))) =
      (before ++
       closing_lines g 0
         "All telemetry operations failed. Check if the OpenTelemetry endpoint is available.")%list.
Proof.
  apply (run_against_a_dead_collector (sample_env unavailable_network)).
  intros k _. reflexivity.
Defined.

(** ** Failures never leave the script *)


